(** * OpenColorIO-Config-ACES: discovery and classification of the
      aces-dev reference CTL transforms

    A shallow embedding of
    [opencolorio_config_aces/config/reference/discover/classify.py]
    and the properties of its identifier parser, pair index, classifier,
    filter pipeline and AMF component graph.

    Python [str] values are modelled as [string] (the UTF-8 bytes of the
    text; every pattern the module searches for is ASCII, so searching
    bytes and searching code points agree).  Insertion-ordered [dict]s
    that the code iterates are association lists ([dict]); the AMF
    component table, only ever read by key, is a [gmap]. *)

From Stdlib Require Import ZArith Lia Ascii String List.
From stdpp Require Import base option list strings gmap sorting.

(** ** Python built-ins used by the module *)

Module Py.

(** [s.startswith(p)] *)
Fixpoint startswith (s p : string) {struct p} : bool :=
  match p, s with
  | EmptyString, _ => true
  | String a p', String b s' => if Ascii.eqb a b then startswith s' p' else false
  | String _ _, EmptyString => false
  end.

(** [s[n:]] *)
Fixpoint drop (n : nat) (s : string) : string :=
  match n, s with
  | O, _ => s
  | S n', String _ s' => drop n' s'
  | S _, EmptyString => EmptyString
  end.

(** [p in s] *)
Fixpoint contains (s p : string) {struct s} : bool :=
  startswith s p ||
  match s with
  | EmptyString => false
  | String _ s' => contains s' p
  end.

(** [s.endswith(p)] *)
Fixpoint endswith (s p : string) {struct s} : bool :=
  String.eqb s p ||
  match s with
  | EmptyString => false
  | String _ s' => endswith s' p
  end.

(** [s.replace(old, new)] for a non-empty [old]: occurrences are found
    left to right and do not overlap.  [skip] counts the characters of
    a matched occurrence that are still to be passed over. *)
Fixpoint replace_from (skip : nat) (s old new : string) {struct s} : string :=
  match s with
  | EmptyString => EmptyString
  | String c s' =>
      match skip with
      | S k => replace_from k s' old new
      | O =>
          if startswith s old
          then new +:+ replace_from (String.length old - 1) s' old new
          else String c (replace_from 0 s' old new)
      end
  end.

Definition replace (s old new : string) : string := replace_from 0 s old new.

(** [s.split(sep)] for a non-empty [sep], as the piece before the first
    separator and the list of the pieces after it. *)
Fixpoint split_from (skip : nat) (s sep : string) {struct s} : string * list string :=
  match s with
  | EmptyString => (EmptyString, [])
  | String c s' =>
      match skip with
      | S k => split_from k s' sep
      | O =>
          if startswith s sep
          then (EmptyString,
                let '(p, r) := split_from (String.length sep - 1) s' sep in p :: r)
          else let '(p, r) := split_from 0 s' sep in (String c p, r)
      end
  end.

Definition split (s sep : string) : list string :=
  let '(p, r) := split_from 0 s sep in p :: r.

(** [sep.join(parts)] *)
Fixpoint join (sep : string) (parts : list string) : string :=
  match parts with
  | [] => EmptyString
  | [p] => p
  | p :: ps => p +:+ sep +:+ join sep ps
  end.

(** [s.partition(sep)] without the separator: the text before and after
    the first occurrence, [None] when there is none. *)
Fixpoint partition (s sep : string) {struct s} : option (string * string) :=
  if startswith s sep then Some (EmptyString, drop (String.length sep) s)
  else match s with
       | EmptyString => None
       | String c s' =>
           match partition s' sep with
           | Some (h, t) => Some (String c h, t)
           | None => None
           end
       end.

(** [s.rpartition(sep)] without the separator: the text before and after
    the last occurrence, [None] when there is none. *)
Fixpoint rpartition (s sep : string) {struct s} : option (string * string) :=
  match s with
  | EmptyString =>
      if startswith s sep then Some (EmptyString, EmptyString) else None
  | String c s' =>
      match rpartition s' sep with
      | Some (h, t) => Some (String c h, t)
      | None =>
          if startswith s sep then Some (EmptyString, drop (String.length sep) s)
          else None
      end
  end.

(** [s.rsplit(sep, 1)] *)
Definition rsplit1 (s sep : string) : list string :=
  match rpartition s sep with
  | Some (h, t) => [h; t]
  | None => [s]
  end.

(** [c.isspace()] for a character of the ASCII range: U+0009 to U+000D
    and U+001C to U+0020. *)
Definition isspace (c : ascii) : bool :=
  let n := nat_of_ascii c in
  ((9 <=? n) && (n <=? 13)) || ((28 <=? n) && (n <=? 32)).

(** The number of bytes of the white space character that [s] starts
    with, [0] when it starts with none.  Past the ASCII range
    [str.isspace] holds for U+0085, U+00A0, U+1680, U+2000 to U+200A,
    U+2028, U+2029, U+202F, U+205F and U+3000, which UTF-8 writes on two
    or three bytes. *)
Definition space_length (s : string) : nat :=
  match s with
  | EmptyString => 0
  | String c s1 =>
      if isspace c then 1
      else
        match s1 with
        | EmptyString => 0
        | String c1 s2 =>
            let n := nat_of_ascii c in
            let n1 := nat_of_ascii c1 in
            if (n =? 194) && ((n1 =? 133) || (n1 =? 160)) then 2
            else
              match s2 with
              | EmptyString => 0
              | String c2 _ =>
                  let n2 := nat_of_ascii c2 in
                  if (n =? 225) && (n1 =? 154) && (n2 =? 128) then 3
                  else if (n =? 226) && (n1 =? 128)
                          && (((128 <=? n2) && (n2 <=? 138))
                              || (n2 =? 168) || (n2 =? 169) || (n2 =? 175))
                  then 3
                  else if (n =? 226) && (n1 =? 129) && (n2 =? 159) then 3
                  else if (n =? 227) && (n1 =? 128) && (n2 =? 128) then 3
                  else 0
              end
        end
  end.

(** [s.lstrip()].  [skip] counts the bytes of a white space character
    that are still to be passed over. *)
Fixpoint lstrip_from (skip : nat) (s : string) {struct s} : string :=
  match s with
  | EmptyString => EmptyString
  | String _ s' =>
      match skip with
      | S k => lstrip_from k s'
      | O =>
          match space_length s with
          | O => s
          | S k => lstrip_from k s'
          end
      end
  end.

Definition lstrip (s : string) : string := lstrip_from 0 s.

(** [s.rstrip()]: the text is cut where only white space follows. *)
Fixpoint rstrip (s : string) : string :=
  match s with
  | EmptyString => EmptyString
  | String c s' =>
      if String.eqb (lstrip s) EmptyString then EmptyString
      else String c (rstrip s')
  end.

(** [s.strip()] *)
Definition strip (s : string) : string := rstrip (lstrip s).

(** [c.lower()] on the ASCII range. *)
Definition lower_ascii (c : ascii) : ascii :=
  let n := nat_of_ascii c in
  if (65 <=? n) && (n <=? 90) then ascii_of_nat (n + 32) else c.

(** [s.lower()] *)
Fixpoint lower (s : string) : string :=
  match s with
  | EmptyString => EmptyString
  | String c s' => String (lower_ascii c) (lower s')
  end.

(** The line feed. *)
Definition LF : string := String (ascii_of_nat 10) EmptyString.

(** [s] between double quotes, for messages. *)
Definition quoted (s : string) : string :=
  String (ascii_of_nat 34) (s +:+ String (ascii_of_nat 34) EmptyString).

(** Python exceptions raised by the module. *)
Inductive exception : Type :=
| ValueError (msg : string)
| AssertionError (msg : string)
| KeyError (key : string)
| IndexError (msg : string)
| OSError (path : string).

(** A computation that returns or raises. *)
Inductive result (A : Type) : Type :=
| Return (a : A)
| Raise (e : exception).
Arguments Return {A} a.
Arguments Raise {A} e.

Definition bind {A B : Type} (m : result A) (k : A -> result B) : result B :=
  match m with
  | Return a => k a
  | Raise e => Raise e
  end.

(** [for x in xs: acc = body(acc, x)], stopping at the first exception. *)
Fixpoint for_each {A S : Type} (body : S -> A -> result S) (xs : list A) (acc : S)
  : result S :=
  match xs with
  | [] => Return acc
  | x :: xs' => bind (body acc x) (for_each body xs')
  end.

(** [a, b = parts] *)
Definition unpack2 (parts : list string) : result (string * string) :=
  match parts with
  | [a; b] => Return (a, b)
  | [] => Raise (ValueError "not enough values to unpack (expected 2, got 0)")
  | [_] => Raise (ValueError "not enough values to unpack (expected 2, got 1)")
  | _ => Raise (ValueError "too many values to unpack (expected 2)")
  end.

(** Ordered [dict] with [str] keys: a new key goes to the end, an
    existing key keeps its place. *)
Definition dict (V : Type) : Type := list (string * V).

Fixpoint get {V : Type} (d : dict V) (k : string) : option V :=
  match d with
  | [] => None
  | (k', v) :: d' => if String.eqb k k' then Some v else get d' k
  end.

Fixpoint set {V : Type} (d : dict V) (k : string) (v : V) : dict V :=
  match d with
  | [] => [(k, v)]
  | (k', v') :: d' =>
      if String.eqb k k' then (k, v) :: d' else (k', v') :: set d' k v
  end.

(** [d[k]] of a [defaultdict] whose factory returns [dflt]. *)
Definition get_default {V : Type} (dflt : V) (d : dict V) (k : string) : V :=
  match get d k with
  | Some v => v
  | None => dflt
  end.

(** [d[k]] of a plain [dict]. *)
Definition getitem {V : Type} (d : dict V) (k : string) : result V :=
  match get d k with
  | Some v => Return v
  | None => Raise (KeyError k)
  end.

(** [x in xs] for a list of [str]. *)
Definition mem (x : string) (xs : list string) : bool :=
  existsb (String.eqb x) xs.

Definition keys {V : Type} (d : dict V) : list string := map fst d.
Definition values {V : Type} (d : dict V) : list V := map snd d.
Definition items {V : Type} (d : dict V) : list (string * V) := d.

(** [os.path.basename] (posixpath). *)
Definition basename (p : string) : string :=
  match rpartition p "/" with
  | Some (_, t) => t
  | None => p
  end.

(** Does [s] hold a character other than a dot? *)
Fixpoint has_non_dot (s : string) : bool :=
  match s with
  | EmptyString => false
  | String c s' => negb (Ascii.eqb c ".") || has_non_dot s'
  end.

(** [os.path.splitext(p)[0]] for a [p] without directory part: the
    extension starts at the last dot, unless only dots precede it. *)
Definition splitext_root (p : string) : string :=
  match rpartition p "." with
  | Some (h, _) => if has_non_dot h then h else p
  | None => p
  end.

(** [os.path.join(a, b)] (posixpath). *)
Definition path_join (a b : string) : string :=
  if startswith b "/" then b
  else if String.eqb a "" || endswith a "/" then a +:+ b
  else a +:+ "/" +:+ b.

End Py.

#[global] Instance result_ret : MRet Py.result := @Py.Return.
#[global] Instance result_bind : MBind Py.result :=
  fun A B k m => Py.bind m k.

(** ** Module constants *)

Definition URN_CTL : string := "urn:ampas:aces:transformId:v2.0".
Definition SEPARATOR_URN_CTL : string := ":".
Definition SEPARATOR_ID_CTL : string := ".".
Definition EXTENSION_CTL : string := ".ctl".
Definition NAMESPACE_CTL : string := "Academy".

Definition TRANSFORM_TYPES_CTL : list string :=
  ["CSC"; "Lib"; "Look"; "InvLook"; "Output"; "InvOutput"].

Definition TRANSFORM_FAMILIES_CTL : Py.dict string :=
  [("aces-core", "lib");
   ("aces-input-and-colorspaces", "csc");
   ("aces-look", "look");
   ("aces-output", "output")].

Definition VALUE_DEFAULT_UNDEFINED : string := "undefined".

(** [os.sep] on the POSIX platforms the corpus lives on. *)
Definition os_sep : string := "/".

(** Modelled from the spec: [attest] of [opencolorio_config_aces.utilities]
    is not part of the sources at hand; a condition that does not hold is
    "a hard parse failure, not a silent default", raised with the given
    message. *)
Definition attest (condition : bool) (message : string) : Py.result unit :=
  if condition then Py.Return tt else Py.Raise (Py.AssertionError message).

(** Modelled from the spec: [optional] of [opencolorio_config_aces.utilities]
    is not part of the sources at hand; "callers may override the default
    list entirely", so the default stands in for an argument left out. *)
Definition optional {A : Type} (value : option A) (default : A) : A :=
  match value with
  | Some v => v
  | None => default
  end.

(** ** [patch_invalid_aces_transform_id] *)

Definition patch_invalid_aces_transform_id (aces_transform_id : string) : string :=
  let invalid_id := aces_transform_id in
  let aces_transform_id :=
    if Py.contains invalid_id "transformID"
    then Py.replace invalid_id "transformID" "transformId"
    else aces_transform_id in
  let aces_transform_id :=
    if Py.contains invalid_id "LogCv3"
    then Py.replace invalid_id "LogCv3" "LogC3"
    else aces_transform_id in
  let aces_transform_id :=
    if Py.contains invalid_id "LogCv4"
    then Py.replace invalid_id "LogCv4" "LogC4"
    else aces_transform_id in
  aces_transform_id.

(** ** [ACESTransformID] *)

Module ACESTransformID.

Record t : Type := mk {
  aces_transform_id : string;
  urn : string;
  type : string;
  namespace : string;
  name : string;
  major_version : string;
  minor_version : string;
  patch_version : string;
  source : string;
  target : string
}.

(** The attributes as [__init__] sets them before parsing. *)
Definition blank (aces_transform_id : string) : t :=
  {| aces_transform_id := aces_transform_id;
     urn := VALUE_DEFAULT_UNDEFINED;
     type := VALUE_DEFAULT_UNDEFINED;
     namespace := VALUE_DEFAULT_UNDEFINED;
     name := VALUE_DEFAULT_UNDEFINED;
     major_version := VALUE_DEFAULT_UNDEFINED;
     minor_version := VALUE_DEFAULT_UNDEFINED;
     patch_version := VALUE_DEFAULT_UNDEFINED;
     source := VALUE_DEFAULT_UNDEFINED;
     target := VALUE_DEFAULT_UNDEFINED |}.

(** The last block of [_parse]: source and target colourspaces from the
    type and the name; [dflt] holds the values set so far. *)
Definition source_target (type name : string) (dflt : string * string)
  : Py.result (string * string) :=
  if String.eqb type "CSC" then
    '(source, target) ←
      (if Py.contains name "Unity" then mret ("ACES", "ACES")
       else Py.unpack2 (Py.split name "_to_"));
    let source := if String.eqb source "ACES" then "ACES2065-1" else source in
    let target := if String.eqb target "ACES" then "ACES2065-1" else target in
    mret (source, target)
  else if Py.mem type ["Look"; "InvLook"] then mret ("ACES2065-1", "ACES2065-1")
  else if String.eqb type "Output" then mret ("ACES2065-1", name)
  else if String.eqb type "InvOutput" then mret (name, "ACES2065-1")
  else mret dflt.

(** [_parse] past the guard on the undefined value. *)
Definition _parse_defined (self : t) : Py.result t :=
  let patched_id :=
    patch_invalid_aces_transform_id self.(aces_transform_id) in
  '(urn, components) ←
    Py.unpack2 (Py.rsplit1 patched_id SEPARATOR_URN_CTL);
  match Py.split components SEPARATOR_ID_CTL with
  | [] => Py.Raise (Py.IndexError "list index out of range")
  | type :: components =>
      _ ← attest (String.eqb urn URN_CTL)
            (self.(aces_transform_id) +:+ " URN " +:+ urn +:+ " is invalid!");
      _ ← attest (Nat.eqb (length components) 4)
            (self.(aces_transform_id) +:+ " is an invalid " +:+ Py.quoted "ACEStransformID" +:+ "!");
      match components with
      | [namespace; name; major_version; minor_version] =>
          _ ← attest (Py.mem type TRANSFORM_TYPES_CTL)
                (self.(aces_transform_id) +:+ " type " +:+ type +:+ " is invalid!");
          '(source, target) ←
            source_target type name (self.(source), self.(target));
          mret {| aces_transform_id := self.(aces_transform_id);
                  urn := urn;
                  type := type;
                  namespace := namespace;
                  name := name;
                  major_version := major_version;
                  minor_version := minor_version;
                  patch_version := self.(patch_version);
                  source := source;
                  target := target |}
      | _ => Py.Raise (Py.ValueError "wrong number of values to unpack (expected 4)")
      end
  end.

Definition _parse (self : t) : Py.result t :=
  if String.eqb self.(aces_transform_id) VALUE_DEFAULT_UNDEFINED
  then mret self
  else _parse_defined self.

(** [ACESTransformID(aces_transform_id)] *)
Definition __init__ (aces_transform_id : string) : Py.result t :=
  _parse (blank aces_transform_id).

End ACESTransformID.

(** ** [CTLTransform] *)

Definition PATTERN_CONSTANTS : string := "============ CONSTANTS ============ //".

(** [re.search] of an opening tag, any text (group 1) and the closing tag
    in [line]: group 1 of the leftmost match, which runs from the first
    opening tag to the last closing tag after it (the text in between is
    matched greedily and a line holds no line feed). *)
Definition re_search_tag (tag line : string) : option string :=
  match Py.partition line ("<" +:+ tag +:+ ">") with
  | Some (_, rest) =>
      match Py.rpartition rest ("</" +:+ tag +:+ ">") with
      | Some (group, _) => Some group
      | None => None
      end
  | None => None
  end.

(** [re.sub] of the second pattern of [PATTERNS_DESCRIPTION_CTL] by the
    empty string: the pattern ends in an any-text wildcard, so a match
    runs to the end of the line; it starts at the first [Written by ]
    that is followed, in this order, by [_IDT_maker.py v] and [ on ]. *)
Definition re_sub_written_by (line : string) : string :=
  match Py.partition line "Written by " with
  | Some (before, rest) =>
      match Py.partition rest "_IDT_maker.py v" with
      | Some (_, rest') =>
          if Py.contains rest' " on " then before else line
      | None => line
      end
  | None => line
  end.

(** The loop over [PATTERNS_DESCRIPTION_CTL.items()]; the first pattern
    holds no regular-expression operator and is replaced literally. *)
Definition sub_description_patterns (line : string) : string :=
  re_sub_written_by (Py.replace line PATTERN_CONSTANTS "").

Module CTLTransform.

(** [siblings] holds the paths of the sibling records: a record is
    identified by its path ([__eq__]), and the two records of a pair
    refer to each other. *)
Record t : Type := mk {
  path : string;
  code : string;
  aces_transform_id : ACESTransformID.t;
  user_name : string;
  description : string;
  family : string;
  genus : string;
  siblings : list string
}.

Definition set_aces_transform_id (self : t) (v : ACESTransformID.t) : t :=
  mk self.(path) self.(code) v self.(user_name) self.(description)
     self.(family) self.(genus) self.(siblings).

Definition set_user_name (self : t) (v : string) : t :=
  mk self.(path) self.(code) self.(aces_transform_id) v self.(description)
     self.(family) self.(genus) self.(siblings).

Definition set_description (self : t) (v : string) : t :=
  mk self.(path) self.(code) self.(aces_transform_id) self.(user_name) v
     self.(family) self.(genus) self.(siblings).

Definition set_code (self : t) (v : string) : t :=
  mk self.(path) v self.(aces_transform_id) self.(user_name)
     self.(description) self.(family) self.(genus) self.(siblings).

(** [self.siblings.append(other)] *)
Definition append_sibling (self other : t) : t :=
  mk self.(path) self.(code) self.(aces_transform_id) self.(user_name)
     self.(description) self.(family) self.(genus)
     (self.(siblings) ++ [other.(path)]).

(** [__eq__] between two records. *)
Definition eqb (self other : t) : bool := String.eqb self.(path) other.(path).

(** The header loop of [_parse]: it runs while [in_header] holds. *)
Fixpoint parse_header (lines : list string) (self : t) : Py.result t :=
  match lines with
  | [] => mret self
  | line :: lines' =>
      match re_search_tag "ACEStransformID" line with
      | Some group =>
          id ← ACESTransformID.__init__ group;
          parse_header lines' (set_aces_transform_id self id)
      | None =>
          match re_search_tag "ACESuserName" line with
          | Some group => parse_header lines' (set_user_name self group)
          | None =>
              if Py.startswith line "//" then
                let line := Py.strip (Py.drop 2 line) in
                let line := sub_description_patterns line in
                parse_header lines'
                  (set_description self (self.(description) +:+ line +:+ Py.LF))
              else mret self
          end
      end
  end.

Section FileSystem.

(** [open(path).read()]; [None] when the file cannot be read. *)
Variable read_file : string -> option string.
(** [os.path.abspath(os.path.normpath(path))] *)
Variable abspath : string -> string.

Definition _parse (self : t) : Py.result t :=
  match read_file self.(path) with
  | None => Py.Raise (Py.OSError self.(path))
  | Some content =>
      let self := set_code self content in
      let lines :=
        List.filter (fun line => negb (String.eqb line ""))
          (map Py.strip (Py.split self.(code) Py.LF)) in
      self ← parse_header lines self;
      mret (set_description self (Py.strip self.(description)))
  end.

(** [CTLTransform(path, family, genus)] *)
Definition __init__ (path family genus : string) : Py.result t :=
  _parse {| path := abspath path;
            code := VALUE_DEFAULT_UNDEFINED;
            aces_transform_id := ACESTransformID.blank VALUE_DEFAULT_UNDEFINED;
            user_name := VALUE_DEFAULT_UNDEFINED;
            description := VALUE_DEFAULT_UNDEFINED;
            family := family;
            genus := genus;
            siblings := [] |}.

End FileSystem.

End CTLTransform.

(** ** [CTLTransformPair] *)

Module CTLTransformPair.

Record t : Type := mk {
  forward_transform : CTLTransform.t;
  inverse_transform : CTLTransform.t
}.

Definition eqb (self other : t) : bool :=
  CTLTransform.eqb self.(forward_transform) other.(forward_transform)
  && CTLTransform.eqb self.(inverse_transform) other.(inverse_transform).

End CTLTransformPair.

(** ** [find_ctl_transform_pairs] *)

(** [re.search] of any text followed by [_to_ACES] at the end of
    [basename]; the end anchor also holds before a final line feed. *)
Definition re_search_to_ACES (basename : string) : bool :=
  Py.endswith basename "_to_ACES" || Py.endswith basename ("_to_ACES" +:+ Py.LF).

(** The body of the loop up to the assignment: the key a path is filed
    under and whether it is the forward transform. *)
Definition pair_key (ctl_transform : string) : string * bool :=
  let is_forward := true in
  let basename := Py.splitext_root (Py.basename ctl_transform) in
  let '(basename, is_forward) :=
    if Py.startswith basename "Inv"
    then (Py.replace basename "Inv" "", false)
    else (basename, is_forward) in
  let '(basename, is_forward) :=
    if re_search_to_ACES basename
    then (Py.replace basename "_to_ACES" "", false)
    else (basename, is_forward) in
  let basename := Py.replace basename "ACES_to_" "" in
  (basename, is_forward).

Definition pair_slot (is_forward : bool) : string :=
  if is_forward then "forward_transform" else "inverse_transform".

Definition find_ctl_transform_pairs (ctl_transforms : list string)
  : Py.dict (Py.dict string) :=
  fold_left
    (fun ctl_transform_pairs ctl_transform =>
       let '(basename, is_forward) := pair_key ctl_transform in
       Py.set ctl_transform_pairs basename
         (Py.set (Py.get_default [] ctl_transform_pairs basename)
                 (pair_slot is_forward) ctl_transform))
    ctl_transforms [].

(** ** [discover_aces_ctl_transforms] *)

(** [walk] is what [os.walk(root_directory)] yields: each directory with
    the names of its files. *)
Definition discover_aces_ctl_transforms (walk : list (string * list string))
  : Py.dict (list string) :=
  fold_left
    (fun ctl_transforms '(directory, filenames) =>
       match filenames with
       | [] => ctl_transforms
       | _ =>
           fold_left
             (fun ctl_transforms filename =>
                if negb (Py.endswith (Py.lower filename) EXTENSION_CTL)
                then ctl_transforms
                else
                  let ctl_transform := Py.path_join directory filename in
                  Py.set ctl_transforms directory
                    (Py.get_default [] ctl_transforms directory ++ [ctl_transform]))
             filenames ctl_transforms
       end)
    walk [].

(** ** [classify_aces_ctl_transforms] and [unclassify_ctl_transforms] *)

Inductive entry : Type :=
| Single (ctl_transform : CTLTransform.t)
| Pair (ctl_transform_pair : CTLTransformPair.t).

(** family, then genus, then basename *)
Definition taxonomy : Type := Py.dict (Py.dict (Py.dict entry)).

(** [classified_ctl_transforms[family][genus][basename] = ctl_transform] *)
Definition set_entry (classified : taxonomy) (family genus basename : string)
  (ctl_transform : entry) : taxonomy :=
  let genera := Py.get_default [] classified family in
  let ctl_transforms := Py.get_default [] genera genus in
  Py.set classified family
    (Py.set genera genus (Py.set ctl_transforms basename ctl_transform)).

(** The family and the genus of a directory, as the head of the loop over
    the directories derives them. *)
Definition family_genus (root_directory directory : string)
  : Py.result (string * string) :=
  let sub_directory := Py.replace directory (root_directory +:+ os_sep) "" in
  match map (fun part => Py.get_default part TRANSFORM_FAMILIES_CTL part)
            (Py.split sub_directory os_sep) with
  | family :: genus =>
      let genus :=
        match genus with
        | [] => VALUE_DEFAULT_UNDEFINED
        | _ => Py.join "/" genus
        end in
      mret (family, genus)
  | [] => Py.Raise (Py.ValueError "not enough values to unpack (expected at least 1, got 0)")
  end.

Section Classifier.

Variable read_file : string -> option string.
Variable abspath : string -> string.
(** [paths_common_ancestor] of [opencolorio_config_aces.utilities] is
    not part of the sources at hand. *)
Variable paths_common_ancestor : list string -> string.

(** The body of the loop over the basenames of one directory. *)
Definition classify_pairs (family genus : string) (classified : taxonomy)
  (item : string * Py.dict string) : Py.result taxonomy :=
  let '(basename, pairs) := item in
  match Py.values pairs with
  | [path] =>
      ctl_transform ← CTLTransform.__init__ read_file abspath path family genus;
      mret (set_entry classified family genus basename (Single ctl_transform))
  | [_; _] =>
      forward_path ← Py.getitem pairs "forward_transform";
      forward_ctl_transform ←
        CTLTransform.__init__ read_file abspath forward_path family genus;
      inverse_path ← Py.getitem pairs "inverse_transform";
      inverse_ctl_transform ←
        CTLTransform.__init__ read_file abspath inverse_path family genus;
      let forward_ctl_transform' :=
        CTLTransform.append_sibling forward_ctl_transform inverse_ctl_transform in
      let inverse_ctl_transform' :=
        CTLTransform.append_sibling inverse_ctl_transform forward_ctl_transform in
      mret (set_entry classified family genus basename
              (Pair (CTLTransformPair.mk forward_ctl_transform'
                                         inverse_ctl_transform')))
  | _ => mret classified
  end.

(** The body of the loop over the directories. *)
Definition classify_directory (root_directory : string) (classified : taxonomy)
  (item : string * list string) : Py.result taxonomy :=
  let '(directory, ctl_transforms) := item in
  '(family, genus) ← family_genus root_directory directory;
  Py.for_each (classify_pairs family genus)
    (Py.items (find_ctl_transform_pairs ctl_transforms)) classified.

Definition classify_aces_ctl_transforms
  (unclassified_ctl_transforms : Py.dict (list string)) : Py.result taxonomy :=
  let root_directory :=
    paths_common_ancestor (concat (Py.values unclassified_ctl_transforms)) in
  Py.for_each (classify_directory root_directory)
    (Py.items unclassified_ctl_transforms) [].

End Classifier.

Definition unclassify_entry (ctl_transform : entry) : list CTLTransform.t :=
  match ctl_transform with
  | Single t => [t]
  | Pair p =>
      [p.(CTLTransformPair.forward_transform);
       p.(CTLTransformPair.inverse_transform)]
  end.

Definition unclassify_ctl_transforms (classified_ctl_transforms : taxonomy)
  : list CTLTransform.t :=
  flat_map
    (fun genera =>
       flat_map
         (fun ctl_transforms => flat_map unclassify_entry (Py.values ctl_transforms))
         (Py.values genera))
    (Py.values classified_ctl_transforms).

(** ** [filter_ctl_transforms] *)

Definition _exclusion_filterer_ARRIIDT (ctl_transform : CTLTransform.t) : bool :=
  let path := ctl_transform.(CTLTransform.path) in
  if negb (Py.contains path "Alexa") then true
  else if Py.contains path "Alexa-v3-logC" then true
  else false.

Definition TRANSFORM_FILTERERS_DEFAULT_CTL : list (CTLTransform.t -> bool) :=
  [_exclusion_filterer_ARRIIDT].

(** [included] after the loop over the filterers: it starts as [True] and
    is multiplied by what each filterer returns. *)
Definition included (filterers : list (CTLTransform.t -> bool))
  (ctl_transform : CTLTransform.t) : Z :=
  fold_left
    (fun included filterer => (included * Z.b2z (filterer ctl_transform))%Z)
    filterers 1%Z.

Definition filter_ctl_transforms
  (ctl_transforms : taxonomy + list CTLTransform.t)
  (filterers : option (list (CTLTransform.t -> bool))) : list CTLTransform.t :=
  let filterers := optional filterers TRANSFORM_FILTERERS_DEFAULT_CTL in
  let ctl_transforms :=
    match ctl_transforms with
    | inl classified => unclassify_ctl_transforms classified
    | inr flat => flat
    end in
  List.filter
    (fun ctl_transform => negb (Z.eqb (included filterers ctl_transform) 0))
    ctl_transforms.

(** ** [generate_amf_components] *)

Module AMF.

(** One element of a [transforms] list of the JSON file. *)
Record transform : Type := mk_transform {
  transformId : string;
  inverseTransformId : option string;
  previousEquivalentTransformIds : list string
}.

(** [json_data["transformsData"]]: for every version key, the
    [transforms] of its value. *)
Definition transforms_data : Type := Py.dict (list transform).

(** [amf_components[key].append(value)] on the [defaultdict(list)] *)
Definition append (amf_components : gmap string (list string))
  (key value : string) : gmap string (list string) :=
  <[key := default [] (amf_components !! key) ++ [value]]> amf_components.

(** [amf_components[key].extend(values)] *)
Definition extend (amf_components : gmap string (list string))
  (key : string) (values : list string) : gmap string (list string) :=
  <[key := default [] (amf_components !! key) ++ values]> amf_components.

(** The body of the loop over [all_transforms]. *)
Definition register (include_previous_transform_ids : bool)
  (amf_components : gmap string (list string)) (transform : transform)
  : gmap string (list string) :=
  let transform_id := transform.(transformId) in
  let amf_components := append amf_components transform_id transform_id in
  let amf_components :=
    if include_previous_transform_ids
    then extend amf_components transform_id
           transform.(previousEquivalentTransformIds)
    else amf_components in
  match transform.(inverseTransformId) with
  | Some inverse_transform_id =>
      let amf_components :=
        append amf_components inverse_transform_id inverse_transform_id in
      let amf_components :=
        append amf_components inverse_transform_id transform_id in
      let amf_components :=
        append amf_components transform_id inverse_transform_id in
      if include_previous_transform_ids
      then extend amf_components inverse_transform_id
             transform.(previousEquivalentTransformIds)
      else amf_components
  | None => amf_components
  end.

(** [sorted({transform_id for transform_id in transform_ids if transform_id})] *)
Definition sorted_ids (transform_ids : list string) : list string :=
  merge_sort String.le
    (elements (list_to_set (filter (fun transform_id => transform_id ≠ "")
                                   transform_ids) : gset string)).

(** [json_data] is the content of [PATH_TRANSFORMS_FILE] under the key
    [transformsData]. *)
Definition generate_amf_components (json_data : transforms_data)
  (include_previous_transform_ids : bool) : gmap string (list string) :=
  let all_transforms := concat (Py.values json_data) in
  let amf_components :=
    fold_left (register include_previous_transform_ids) all_transforms ∅ in
  sorted_ids <$>
    filter (fun item : string * list string => item.2 ≠ []) amf_components.

End AMF.

(** ** Notions the properties are stated with *)

(** The URN segment of an identifier: what precedes the last [:] once the
    compatibility rewrite is applied; [None] when there is no [:]. *)
Definition urn_segment (aces_transform_id : string) : option string :=
  match Py.rpartition (patch_invalid_aces_transform_id aces_transform_id)
          SEPARATOR_URN_CTL with
  | Some (urn, _) => Some urn
  | None => None
  end.

(** The tokens of the ID part: what follows the last [:], split on [.]. *)
Definition id_tokens (aces_transform_id : string) : list string :=
  match Py.rpartition (patch_invalid_aces_transform_id aces_transform_id)
          SEPARATOR_URN_CTL with
  | Some (_, id) => Py.split id SEPARATOR_ID_CTL
  | None => []
  end.

(** The name of the working reference space. *)
Definition working_reference : string := "ACES2065-1".

(** The token [ACES] stands for the working reference space. *)
Definition canonical (token : string) : string :=
  if String.eqb token "ACES" then working_reference else token.

(** The source and target rules as the specification words them, for the
    six types; [None] where they name no source and target (a CSC name
    without Unity that does not split in two on [_to_]). *)
Definition source_target_rule (type name : string) : option (string * string) :=
  if String.eqb type "CSC" then
    if Py.contains name "Unity" then Some (working_reference, working_reference)
    else match Py.split name "_to_" with
         | [source; target] => Some (canonical source, canonical target)
         | _ => None
         end
  else if String.eqb type "Look" then Some (working_reference, working_reference)
  else if String.eqb type "InvLook" then Some (working_reference, working_reference)
  else if String.eqb type "Output" then Some (working_reference, name)
  else if String.eqb type "InvOutput" then Some (name, working_reference)
  else Some (VALUE_DEFAULT_UNDEFINED, VALUE_DEFAULT_UNDEFINED).

(** A computation raises. *)
Definition raises {A : Type} (r : Py.result A) : Prop :=
  match r with
  | Py.Raise _ => True
  | Py.Return _ => False
  end.

(** The substitution of a directory name through the table of families. *)
Definition family_of (part : string) : string :=
  Py.get_default part TRANSFORM_FAMILIES_CTL part.

(** [sub_directory] of the loop over the directories: the directory with
    every occurrence of the root directory followed by the separator
    taken out. *)
Definition sub_directory (root_directory directory : string) : string :=
  Py.replace directory (root_directory +:+ os_sep) "".


(** The last path of [ctl_transforms] that is filed under [basename] in
    the given direction. *)
Definition last_filed (basename : string) (is_forward : bool)
  (ctl_transforms : list string) : option string :=
  last (List.filter
          (fun ctl_transform =>
             String.eqb (pair_key ctl_transform).1 basename
             && Bool.eqb (pair_key ctl_transform).2 is_forward)
          ctl_transforms).

(** [related graph a b]: [b] is listed under [a] in the component table. *)
Definition related (graph : gmap string (list string)) (a b : string) : Prop :=
  exists ids, graph !! a = Some ids /\ b ∈ ids.

(** Modelled from the spec: [paths_common_ancestor] of
    [opencolorio_config_aces.utilities] is not part of the sources at
    hand; it "computes the common ancestor directory of all discovered
    paths", taken here as the leading path segments that all paths share. *)
Fixpoint common_segments (a b : list string) : list string :=
  match a, b with
  | x :: a', y :: b' => if String.eqb x y then x :: common_segments a' b' else []
  | _, _ => []
  end.

Definition paths_common_ancestor (paths : list string) : string :=
  match map (fun path => Py.split path os_sep) paths with
  | [] => ""
  | segments :: others => Py.join os_sep (fold_left common_segments others segments)
  end.

(** The number of paths of a discovery. *)
Definition discovered_count (unclassified : Py.dict (list string)) : nat :=
  length (concat (Py.values unclassified)).

(** [listed amf_components a b]: [b] is in the list accumulated under
    [a], an absent key standing for the empty list. *)
Definition listed (amf_components : gmap string (list string)) (a b : string)
  : Prop :=
  b ∈ default [] (amf_components !! a).

(** What one [transform] of the JSON data lists: [b] under [a]. *)
Definition linked (include_previous_transform_ids : bool)
  (transform : AMF.transform) (a b : string) : Prop :=
  let transform_id := transform.(AMF.transformId) in
  let previous := transform.(AMF.previousEquivalentTransformIds) in
  (a = transform_id /\ b = transform_id)
  \/ (include_previous_transform_ids = true /\ a = transform_id /\ b ∈ previous)
  \/ exists inverse_transform_id,
       transform.(AMF.inverseTransformId) = Some inverse_transform_id
       /\ ((a = inverse_transform_id /\ b = inverse_transform_id)
           \/ (a = inverse_transform_id /\ b = transform_id)
           \/ (a = transform_id /\ b = inverse_transform_id)
           \/ (include_previous_transform_ids = true
               /\ a = inverse_transform_id /\ b ∈ previous)).

(** Every key of the accumulated table is in its own list. *)
Definition self_listed (amf_components : gmap string (list string)) : Prop :=
  forall key transform_ids,
    amf_components !! key = Some transform_ids -> key ∈ transform_ids.

(** [classified[family][genus].get(basename)] on the nested
    [defaultdict]s. *)
Definition taxonomy_get (classified : taxonomy) (family genus basename : string)
  : option entry :=
  Py.get (Py.get_default [] (Py.get_default [] classified family) genus) basename.

(** The paths of the records that [unclassify_ctl_transforms] returns. *)
Definition classified_paths (classified : taxonomy) : list string :=
  map CTLTransform.path (unclassify_ctl_transforms classified).

(** The family and genus of a directory ([family_genus] never raises). *)
Definition family_genus_of (root_directory directory : string) : string * string :=
  match family_genus root_directory directory with
  | Py.Return family_and_genus => family_and_genus
  | Py.Raise _ => (VALUE_DEFAULT_UNDEFINED, VALUE_DEFAULT_UNDEFINED)
  end.

(** The assignments [classified[family][genus][basename] = ...] that the
    two loops of [classify_aces_ctl_transforms] go through, in order:
    family and genus, then basename and the paths found for it. *)
Definition assignments (root_directory : string)
  (unclassified : Py.dict (list string))
  : list ((string * string) * (string * Py.dict string)) :=
  flat_map
    (fun '(directory, ctl_transforms) =>
       map (fun item => (family_genus_of root_directory directory, item))
           (Py.items (find_ctl_transform_pairs ctl_transforms)))
    (Py.items unclassified).

(** The taxonomy slot of an assignment: family and genus, then basename. *)
Definition assigned_slot (assignment : (string * string) * (string * Py.dict string))
  : (string * string) * string :=
  (assignment.1, assignment.2.1).

(** No two files of a directory are filed under the same basename in the
    same direction, and no two basenames, of one directory or two, are
    assigned to the same taxonomy slot. *)
Definition collision_free (root_directory : string)
  (unclassified : Py.dict (list string)) : Prop :=
  Forall (fun item : string * list string => NoDup (map pair_key item.2))
         (Py.items unclassified)
  /\ NoDup (map assigned_slot (assignments root_directory unclassified)).

(** The shapes of the value that [find_ctl_transform_pairs] holds for a
    basename. *)
Definition one_or_two (pairs : Py.dict string) : Prop :=
  exists p q,
    pairs = [("forward_transform", p)]
    \/ pairs = [("inverse_transform", p)]
    \/ pairs = [("forward_transform", p); ("inverse_transform", q)]
    \/ pairs = [("inverse_transform", p); ("forward_transform", q)].

(** The paths that an assignment holds. *)
Definition assigned_paths (assignment : (string * string) * (string * Py.dict string))
  : list string :=
  Py.values assignment.2.2.

(** The body of the two loops of [classify_aces_ctl_transforms], on one
    assignment. *)
Definition assign (read_file : string -> option string)
  (abspath : string -> string) (classified : taxonomy)
  (assignment : (string * string) * (string * Py.dict string))
  : Py.result taxonomy :=
  classify_pairs read_file abspath assignment.1.1 assignment.1.2 classified
    assignment.2.

(** A file system in which every transform file has the same header. *)
Definition sample_read_file (path : string) : option string :=
  Some ("// <ACEStransformID>urn:ampas:aces:transformId:v2.0:Lib.Academy.Sample.a2.v1</ACEStransformID>"
        +:+ Py.LF
        +:+ "// <ACESuserName>Sample</ACESuserName>" +:+ Py.LF
        +:+ "// A sample transform." +:+ Py.LF
        +:+ "import " +:+ Py.quoted "Lib.Academy.Utilities" +:+ ";" +:+ Py.LF).

(** Two files of one directory whose names differ in the case of the
    extension only, next to a file of another directory. *)
Definition walk_with_collision : list (string * list string) :=
  [("/aces/transforms/ctl/aces-look",
    ["Look.Academy.Foo.ctl"; "Look.Academy.Foo.CTL"]);
   ("/aces/transforms/ctl/aces-core", ["Lib.Academy.Bar.ctl"])].

(** A forward and inverse pair, next to a file of another directory. *)
Definition walk_with_pair : list (string * list string) :=
  [("/aces/transforms/ctl/aces-output/d65",
    ["Output.Academy.Foo.ctl"; "InvOutput.Academy.Foo.ctl"; "README.md"]);
   ("/aces/transforms/ctl/aces-core", ["Lib.Academy.Bar.ctl"])].

(** ** [ctl_transform_relative_path] and [filter_amf_components] *)

(** [root_directory] defaults to [ROOT_TRANSFORMS_CTL], which is read
    from the environment. *)
Definition ctl_transform_relative_path (path root_directory : string) : string :=
  Py.replace path (root_directory +:+ os_sep) "".

(** [[f(x) for x in xs]], stopping at the first exception. *)
Fixpoint map_result {A B : Type} (f : A -> Py.result B) (xs : list A)
  : Py.result (list B) :=
  match xs with
  | [] => mret []
  | x :: xs' => y ← f x; ys ← map_result f xs'; mret (y :: ys)
  end.

(** The truth value of an optional list: [None] and the empty list are
    false. *)
Definition truthy {A : Type} (xs : option (list A)) : bool :=
  match xs with
  | Some (_ :: _) => true
  | _ => false
  end.

Section FilterAMFComponents.

(** [filter_any] and [filter_all] of [opencolorio_config_aces.utilities]
    are not part of the sources at hand. *)
Variable filter_any filter_all :
  list (Py.dict string) -> list (Py.dict string -> bool) -> list (Py.dict string).

Definition filter_amf_components (amf_components : gmap string (list string))
  (aces_transform_id : string)
  (filter_any_filterers filter_all_filterers
     : option (list (Py.dict string -> bool)))
  : Py.result (list string) :=
  let filtered_amf_components :=
    default [] (amf_components !! aces_transform_id) in
  filtered_amf_components ←
    (if truthy filter_any_filterers || truthy filter_all_filterers then
       let filtered_amf_components_dicts :=
         map (fun transform_id => [("transform_id", transform_id)])
             filtered_amf_components in
       let filtered_amf_components_dicts :=
         if truthy filter_any_filterers
         then filter_any filtered_amf_components_dicts
                (default [] filter_any_filterers)
         else filtered_amf_components_dicts in
       let filtered_amf_components_dicts :=
         if truthy filter_all_filterers
         then filter_all filtered_amf_components_dicts
                (default [] filter_all_filterers)
         else filtered_amf_components_dicts in
       map_result
         (fun filtered_amf_components_dict =>
            Py.getitem filtered_amf_components_dict "transform_id")
         filtered_amf_components_dicts
     else mret filtered_amf_components);
  mret (merge_sort String.le filtered_amf_components).

End FilterAMFComponents.

(** ** Further notions *)

(** The non-empty stripped lines of a file, which [CTLTransform._parse]
    goes through. *)
Definition stripped_lines (code : string) : list string :=
  List.filter (fun line => negb (String.eqb line ""))
    (map Py.strip (Py.split code Py.LF)).

(** A line that ends the header: neither of the two tags nor a comment. *)
Definition ends_header (line : string) : Prop :=
  re_search_tag "ACEStransformID" line = None
  /\ re_search_tag "ACESuserName" line = None
  /\ Py.startswith line "//" = false.

(** The paths discovered under a directory. *)
Definition discovered_under (ctl_transforms : Py.dict (list string))
  (directory : string) : list string :=
  Py.get_default [] ctl_transforms directory.

(** An entry as [classify_aces_ctl_transforms] makes it for a family and
    a genus: the records carry them, a single record has no sibling and
    the two records of a pair have each other. *)
Definition filed_under (family genus : string) (ctl_transform : entry) : Prop :=
  match ctl_transform with
  | Single t =>
      t.(CTLTransform.family) = family
      /\ t.(CTLTransform.genus) = genus
      /\ t.(CTLTransform.siblings) = []
  | Pair p =>
      let forward := p.(CTLTransformPair.forward_transform) in
      let inverse := p.(CTLTransformPair.inverse_transform) in
      forward.(CTLTransform.family) = family
      /\ forward.(CTLTransform.genus) = genus
      /\ inverse.(CTLTransform.family) = family
      /\ inverse.(CTLTransform.genus) = genus
      /\ forward.(CTLTransform.siblings) = [inverse.(CTLTransform.path)]
      /\ inverse.(CTLTransform.siblings) = [forward.(CTLTransform.path)]
  end.

(** Every entry of a taxonomy is filed under its own family and genus. *)
Definition well_filed (classified : taxonomy) : Prop :=
  forall family genus basename ctl_transform,
    taxonomy_get classified family genus basename = Some ctl_transform ->
    filed_under family genus ctl_transform.

(** A header line that is a comment or holds the user name, without the
    identifier tag. *)
Definition plain_header_line (line : string) : Prop :=
  re_search_tag "ACEStransformID" line = None
  /\ (is_Some (re_search_tag "ACESuserName" line)
      \/ Py.startswith line "//" = true).

(** A file system in which every file is a library file without tags. *)
Definition untagged_read_file (path : string) : option string :=
  Some ("// Library of utility functions." +:+ Py.LF
        +:+ Py.LF
        +:+ "const float PI = 3.14159;" +:+ Py.LF).

(** A file system in which every file holds an identifier of the former
    grammar, the one of the docstring of [ACESTransformID]. *)
Definition former_read_file (path : string) : option string :=
  Some ("// <ACEStransformID>urn:ampas:aces:transformId:v1.5:ODT.Academy.DCDM.a1.0.3</ACEStransformID>"
        +:+ Py.LF
        +:+ "// <ACESuserName>ACES 1.0 Output - DCDM</ACESuserName>" +:+ Py.LF).

(** A record before its file is parsed. *)
Definition unparsed_record (path family genus : string) : CTLTransform.t :=
  {| CTLTransform.path := path;
     CTLTransform.code := VALUE_DEFAULT_UNDEFINED;
     CTLTransform.aces_transform_id := ACESTransformID.blank VALUE_DEFAULT_UNDEFINED;
     CTLTransform.user_name := VALUE_DEFAULT_UNDEFINED;
     CTLTransform.description := VALUE_DEFAULT_UNDEFINED;
     CTLTransform.family := family;
     CTLTransform.genus := genus;
     CTLTransform.siblings := [] |}.

(** An identifier put together from its URN and its five tokens. *)
Definition format_aces_transform_id
  (type namespace name major_version minor_version : string) : string :=
  URN_CTL +:+ SEPARATOR_URN_CTL
  +:+ Py.join SEPARATOR_ID_CTL
        [type; namespace; name; major_version; minor_version].

(** * Properties *)

(** ** The monad of results *)

Lemma bind_return {A B : Type} (a : A) (k : A -> Py.result B) :
  (Py.Return a ≫= k) = k a.
Proof. reflexivity. Qed.

Lemma bind_raise {A B : Type} (e : Py.exception) (k : A -> Py.result B) :
  (Py.Raise e ≫= k) = Py.Raise e.
Proof. reflexivity. Qed.

Lemma split_cons (s sep : string) :
  exists p r, Py.split s sep = p :: r.
Proof. unfold Py.split. destruct (Py.split_from 0 s sep) as [p r]. eauto. Qed.

(** ** [ACESTransformID] *)

Lemma init_defined (s : string) :
  s <> VALUE_DEFAULT_UNDEFINED ->
  ACESTransformID.__init__ s
  = ACESTransformID._parse_defined (ACESTransformID.blank s).
Proof.
  intros Hs. unfold ACESTransformID.__init__, ACESTransformID._parse.
  cbn [ACESTransformID.aces_transform_id ACESTransformID.blank].
  destruct (String.eqb_spec s VALUE_DEFAULT_UNDEFINED); [contradiction|reflexivity].
Qed.

Lemma mem_true (x : string) (xs : list string) :
  Py.mem x xs = true <-> x ∈ xs.
Proof.
  unfold Py.mem. rewrite existsb_exists. split.
  - intros (y & Hy & Heq). apply String.eqb_eq in Heq. subst.
    by apply list_elem_of_In.
  - intros H. exists x. split; [by apply list_elem_of_In|apply String.eqb_refl].
Qed.

(** The parse of a defined identifier, in terms of its URN segment and
    its tokens. *)
Lemma parse_defined_tokens (s urn : string) (tokens : list string) :
  urn_segment s = Some urn ->
  id_tokens s = tokens ->
  ACESTransformID._parse_defined (ACESTransformID.blank s)
  = match tokens with
    | [] => Py.Raise (Py.IndexError "list index out of range")
    | type :: components =>
        _ ← attest (String.eqb urn URN_CTL)
              (s +:+ " URN " +:+ urn +:+ " is invalid!");
        _ ← attest (Nat.eqb (length components) 4)
              (s +:+ " is an invalid " +:+ Py.quoted "ACEStransformID" +:+ "!");
        match components with
        | [namespace; name; major_version; minor_version] =>
            _ ← attest (Py.mem type TRANSFORM_TYPES_CTL)
                  (s +:+ " type " +:+ type +:+ " is invalid!");
            '(source, target) ←
              ACESTransformID.source_target type name
                (VALUE_DEFAULT_UNDEFINED, VALUE_DEFAULT_UNDEFINED);
            mret (ACESTransformID.mk s urn type namespace name major_version
                    minor_version VALUE_DEFAULT_UNDEFINED source target)
        | _ => Py.Raise (Py.ValueError "wrong number of values to unpack (expected 4)")
        end
    end.
Proof.
  unfold urn_segment, id_tokens, ACESTransformID._parse_defined, Py.rsplit1.
  cbn [ACESTransformID.aces_transform_id ACESTransformID.blank
       ACESTransformID.source ACESTransformID.target
       ACESTransformID.patch_version].
  destruct (Py.rpartition _ _) as [[u i]|]; [|discriminate].
  intros [= ->] <-. reflexivity.
Qed.

Lemma source_target_refines_rule (type name : string) :
  match source_target_rule type name with
  | Some st =>
      ACESTransformID.source_target type name
        (VALUE_DEFAULT_UNDEFINED, VALUE_DEFAULT_UNDEFINED) = Py.Return st
  | None =>
      raises (ACESTransformID.source_target type name
                (VALUE_DEFAULT_UNDEFINED, VALUE_DEFAULT_UNDEFINED))
  end.
Proof.
  unfold source_target_rule, ACESTransformID.source_target, Py.mem, canonical,
    working_reference.
  destruct (String.eqb type "CSC").
  - destruct (Py.contains name "Unity"); [reflexivity|].
    destruct (Py.split name "_to_") as [|a [|b [|c l]]]; cbn; auto.
  - cbn [existsb].
    destruct (String.eqb type "Look"); [reflexivity|].
    destruct (String.eqb type "InvLook"); [reflexivity|].
    cbn [orb].
    destruct (String.eqb type "Output"); [reflexivity|].
    destruct (String.eqb type "InvOutput"); reflexivity.
Qed.

(** C10.  Constructing an [ACESTransformID] from the undefined value does
    not raise and validates nothing: parsing returns at its first test and
    every attribute keeps the undefined value, although the string has no
    URN segment and the rest of the parser would reject it. *)
Theorem undefined_identifier_is_not_parsed :
  ACESTransformID.__init__ "undefined"
  = Py.Return
      {| ACESTransformID.aces_transform_id := "undefined";
         ACESTransformID.urn := "undefined";
         ACESTransformID.type := "undefined";
         ACESTransformID.namespace := "undefined";
         ACESTransformID.name := "undefined";
         ACESTransformID.major_version := "undefined";
         ACESTransformID.minor_version := "undefined";
         ACESTransformID.patch_version := "undefined";
         ACESTransformID.source := "undefined";
         ACESTransformID.target := "undefined" |}
  /\ urn_segment "undefined" = None
  /\ raises (ACESTransformID._parse_defined (ACESTransformID.blank "undefined")).
Proof. repeat split. Qed.

(** C3, as stated, fails on the undefined value: its URN segment is not
    the constant, and yet the construction returns. *)
Lemma undefined_identifier_is_accepted :
  urn_segment "undefined" <> Some URN_CTL
  /\ ACESTransformID.__init__ "undefined"
     = Py.Return (ACESTransformID.blank "undefined").
Proof. split; [discriminate|reflexivity]. Qed.

(** C3, amended.  For every string other than the undefined value, the
    construction raises when, after the compatibility rewrite, the URN
    segment is not the constant (or there is none), or the ID part does not
    split into a type and four components, or the type is not one of the
    six known ones. *)
Theorem malformed_identifier_raises (s : string) :
  s <> VALUE_DEFAULT_UNDEFINED ->
  urn_segment s <> Some URN_CTL
  \/ length (id_tokens s) <> 5
  \/ (forall type, head (id_tokens s) = Some type -> type ∉ TRANSFORM_TYPES_CTL) ->
  raises (ACESTransformID.__init__ s).
Proof.
  intros Hs Hbad. rewrite (init_defined s Hs).
  destruct (urn_segment s) as [urn|] eqn:Hurn.
  - rewrite (parse_defined_tokens s urn (id_tokens s) Hurn eq_refl).
    destruct (id_tokens s) as [|type components] eqn:Htok; [exact I|].
    destruct (String.eqb_spec urn URN_CTL) as [->|Hne]; [|exact I].
    cbn [attest]. rewrite bind_return.
    destruct (Nat.eqb_spec (length components) 4) as [Hlen|Hlen]; [|exact I].
    cbn [attest]. rewrite bind_return.
    destruct components as [|a [|b [|c [|d [|]]]]]; try discriminate Hlen.
    destruct (Py.mem type TRANSFORM_TYPES_CTL) eqn:Hmem; [|exact I].
    exfalso. destruct Hbad as [H|[H|H]].
    + by apply H.
    + by apply H.
    + apply (H type eq_refl). by apply mem_true.
  - unfold urn_segment in Hurn.
    unfold ACESTransformID._parse_defined, Py.rsplit1.
    cbn [ACESTransformID.aces_transform_id ACESTransformID.blank].
    destruct (Py.rpartition _ _) as [[u i]|]; [discriminate|exact I].
Qed.

Lemma malformed_identifier_raises_witness :
  "urn:ampas:aces:transformId:v1.5:Lib.Academy.Tonescale.a2.v1"
    <> VALUE_DEFAULT_UNDEFINED
  /\ urn_segment "urn:ampas:aces:transformId:v1.5:Lib.Academy.Tonescale.a2.v1"
     <> Some URN_CTL
  /\ raises (ACESTransformID.__init__
               "urn:ampas:aces:transformId:v1.5:Lib.Academy.Tonescale.a2.v1").
Proof.
  split; [discriminate|]. split; [vm_compute; discriminate|].
  apply malformed_identifier_raises; [discriminate|].
  left. vm_compute. discriminate.
Defined.

(** C4, as stated, fails on a CSC identifier of the grammar whose name
    does not hold the separator: no source and target are computed, the
    construction raises. *)
Lemma csc_without_separator_raises :
  urn_segment "urn:ampas:aces:transformId:v2.0:CSC.Academy.Foo.a2.v1"
  = Some URN_CTL
  /\ id_tokens "urn:ampas:aces:transformId:v2.0:CSC.Academy.Foo.a2.v1"
     = ["CSC"; "Academy"; "Foo"; "a2"; "v1"]
  /\ ACESTransformID.__init__
       "urn:ampas:aces:transformId:v2.0:CSC.Academy.Foo.a2.v1"
     = Py.Raise (Py.ValueError "not enough values to unpack (expected 2, got 1)").
Proof. repeat split. Qed.

(** The token [ACES] is rewritten for the CSC type only. *)
Example output_named_ACES_keeps_its_name :
  match ACESTransformID.__init__
          "urn:ampas:aces:transformId:v2.0:Output.Academy.ACES.a2.v1" with
  | Py.Return id => ACESTransformID.target id = "ACES"
  | Py.Raise _ => False
  end.
Proof. reflexivity. Qed.

(** C4, amended.  For every identifier whose URN segment is the constant
    and whose ID part splits into one of the six types and four
    components, the construction returns the record of these fields with
    the source and target of the rules (CSC: both sides of the one [_to_]
    of the name, [ACES] standing for the working reference space, or the
    working reference space twice when the name holds Unity; Look and
    InvLook: the working reference space twice; Output: working reference
    space to name; InvOutput: name to working reference space; Lib: both
    undefined), and raises for a CSC name without Unity that does not
    split in two on [_to_]. *)
Theorem parse_source_target (s type namespace name major minor : string) :
  s <> VALUE_DEFAULT_UNDEFINED ->
  urn_segment s = Some URN_CTL ->
  id_tokens s = [type; namespace; name; major; minor] ->
  type ∈ TRANSFORM_TYPES_CTL ->
  match source_target_rule type name with
  | Some (source, target) =>
      ACESTransformID.__init__ s
      = Py.Return
          {| ACESTransformID.aces_transform_id := s;
             ACESTransformID.urn := URN_CTL;
             ACESTransformID.type := type;
             ACESTransformID.namespace := namespace;
             ACESTransformID.name := name;
             ACESTransformID.major_version := major;
             ACESTransformID.minor_version := minor;
             ACESTransformID.patch_version := VALUE_DEFAULT_UNDEFINED;
             ACESTransformID.source := source;
             ACESTransformID.target := target |}
  | None => raises (ACESTransformID.__init__ s)
  end.
Proof.
  intros Hs Hurn Htok Hty. rewrite (init_defined s Hs).
  rewrite (parse_defined_tokens s URN_CTL _ Hurn Htok).
  rewrite String.eqb_refl. cbn [attest length Nat.eqb]. rewrite !bind_return.
  apply mem_true in Hty. rewrite Hty. cbn [attest]. rewrite bind_return.
  pose proof (source_target_refines_rule type name) as Href.
  destruct (source_target_rule type name) as [[source target]|].
  - rewrite Href. reflexivity.
  - destruct (ACESTransformID.source_target _ _ _); [destruct Href|exact I].
Qed.

Lemma parse_source_target_witness :
  ACESTransformID.__init__
    "urn:ampas:aces:transformId:v2.0:Output.Academy.Rec709-D65_100nit_in_Rec709-D65_sRGB-Piecewise.a2.v1"
  = Py.Return
      {| ACESTransformID.aces_transform_id :=
           "urn:ampas:aces:transformId:v2.0:Output.Academy.Rec709-D65_100nit_in_Rec709-D65_sRGB-Piecewise.a2.v1";
         ACESTransformID.urn := "urn:ampas:aces:transformId:v2.0";
         ACESTransformID.type := "Output";
         ACESTransformID.namespace := "Academy";
         ACESTransformID.name := "Rec709-D65_100nit_in_Rec709-D65_sRGB-Piecewise";
         ACESTransformID.major_version := "a2";
         ACESTransformID.minor_version := "v1";
         ACESTransformID.patch_version := "undefined";
         ACESTransformID.source := "ACES2065-1";
         ACESTransformID.target := "Rec709-D65_100nit_in_Rec709-D65_sRGB-Piecewise" |}.
Proof.
  apply (parse_source_target
           "urn:ampas:aces:transformId:v2.0:Output.Academy.Rec709-D65_100nit_in_Rec709-D65_sRGB-Piecewise.a2.v1"
           "Output" "Academy" "Rec709-D65_100nit_in_Rec709-D65_sRGB-Piecewise"
           "a2" "v1").
  - discriminate.
  - vm_compute. reflexivity.
  - vm_compute. reflexivity.
  - apply mem_true. vm_compute. reflexivity.
Defined.

(** ** [patch_invalid_aces_transform_id] *)

(** C5.  An identifier with both a mistyped URN keyword and a legacy
    curve name: every test reads the original string, so the last rewrite
    that applies discards the earlier ones; a second application then
    repairs the URN keyword that the first one left in place. *)
Theorem patch_twice_differs_from_patch_once :
  patch_invalid_aces_transform_id
    "urn:ampas:aces:transformID:v2.0:CSC.Arri.LogCv3_to_ACES.a2.v1"
  = "urn:ampas:aces:transformID:v2.0:CSC.Arri.LogC3_to_ACES.a2.v1"
  /\ patch_invalid_aces_transform_id
       (patch_invalid_aces_transform_id
          "urn:ampas:aces:transformID:v2.0:CSC.Arri.LogCv3_to_ACES.a2.v1")
     = "urn:ampas:aces:transformId:v2.0:CSC.Arri.LogC3_to_ACES.a2.v1".
Proof. split; reflexivity. Qed.

(** The identifier above is therefore rejected for its URN, which the
    rewrite exists to repair. *)
Example doubly_invalid_identifier_raises :
  raises (ACESTransformID.__init__
            "urn:ampas:aces:transformID:v2.0:CSC.Arri.LogCv3_to_ACES.a2.v1").
Proof. exact I. Qed.

(** ** [filter_ctl_transforms] *)

Lemma included_app (fs gs : list (CTLTransform.t -> bool)) (t : CTLTransform.t) :
  included (fs ++ gs) t
  = fold_left (fun acc filterer => (acc * Z.b2z (filterer t))%Z) gs (included fs t).
Proof. unfold included. apply fold_left_app. Qed.

Lemma included_from_zero (gs : list (CTLTransform.t -> bool)) (t : CTLTransform.t) :
  fold_left (fun acc filterer => (acc * Z.b2z (filterer t))%Z) gs 0%Z = 0%Z.
Proof. induction gs as [|g gs IH]; [reflexivity|exact IH]. Qed.

(** A transform is kept exactly when every filterer accepts it. *)
Lemma included_forallb (fs : list (CTLTransform.t -> bool)) (t : CTLTransform.t) :
  negb (Z.eqb (included fs t) 0) = forallb (fun filterer => filterer t) fs.
Proof.
  induction fs as [|f fs IH] using rev_ind; [reflexivity|].
  rewrite included_app, forallb_app. cbn [fold_left forallb].
  rewrite <- IH, andb_true_r.
  destruct (Z.eqb_spec (included fs t) 0) as [->|Hne]; [reflexivity|].
  destruct (f t); cbn [Z.b2z negb andb].
  - rewrite Z.mul_1_r. by destruct (Z.eqb_spec (included fs t) 0).
  - by rewrite Z.mul_0_r.
Qed.

Lemma filter_sublist_mono {A : Type} (f g : A -> bool) (l : list A) :
  (forall x, f x = true -> g x = true) ->
  List.filter f l `sublist_of` List.filter g l.
Proof.
  intros Hfg. induction l as [|x l IH]; [constructor|].
  cbn [List.filter]. destruct (f x) eqn:Hf.
  - rewrite (Hfg x Hf). by apply sublist_skip.
  - destruct (g x); [by apply sublist_cons|exact IH].
Qed.

(** Adding filterers can only remove transforms. *)
Lemma filter_ctl_transforms_more_filterers
  (ctl_transforms : taxonomy + list CTLTransform.t)
  (fs gs : list (CTLTransform.t -> bool)) :
  filter_ctl_transforms ctl_transforms (Some (fs ++ gs))
  `sublist_of` filter_ctl_transforms ctl_transforms (Some fs).
Proof.
  unfold filter_ctl_transforms, optional. apply filter_sublist_mono.
  intros t. rewrite !included_forallb, forallb_app.
  by intros [? _]%andb_true_iff.
Qed.

(** C7.  Whether a taxonomy or a flat list is given, what the filterers
    [p1] and [p2] keep together is a sub-list, and so a subset, of what
    [p1] keeps alone. *)
Theorem filter_ctl_transforms_conjunction
  (ctl_transforms : taxonomy + list CTLTransform.t)
  (p1 p2 : CTLTransform.t -> bool) :
  filter_ctl_transforms ctl_transforms (Some [p1; p2])
  `sublist_of` filter_ctl_transforms ctl_transforms (Some [p1]).
Proof. exact (filter_ctl_transforms_more_filterers ctl_transforms [p1] [p2]). Qed.

Lemma filter_ctl_transforms_conjunction_subset
  (ctl_transforms : taxonomy + list CTLTransform.t)
  (p1 p2 : CTLTransform.t -> bool) :
  filter_ctl_transforms ctl_transforms (Some [p1; p2])
  ⊆ filter_ctl_transforms ctl_transforms (Some [p1]).
Proof.
  intros t Ht. eapply elem_of_sublist; [exact Ht|].
  exact (filter_ctl_transforms_more_filterers ctl_transforms [p1] [p2]).
Qed.

(** ** Ordered dictionaries *)

Lemma get_set {V : Type} (d : Py.dict V) (k j : string) (v : V) :
  Py.get (Py.set d k v) j = if String.eqb j k then Some v else Py.get d j.
Proof.
  induction d as [|[k' v'] d IH]; cbn [Py.set Py.get]; [reflexivity|].
  destruct (String.eqb_spec k k') as [->|Hk]; cbn [Py.get].
  - by destruct (String.eqb_spec j k').
  - rewrite IH. destruct (String.eqb_spec j k') as [->|Hj]; [|reflexivity].
    by destruct (String.eqb_spec k' k) as [->|].
Qed.

Lemma get_set_eq {V : Type} (d : Py.dict V) (k : string) (v : V) :
  Py.get (Py.set d k v) k = Some v.
Proof. by rewrite get_set, String.eqb_refl. Qed.

Lemma get_set_ne {V : Type} (d : Py.dict V) (k j : string) (v : V) :
  j <> k -> Py.get (Py.set d k v) j = Py.get d j.
Proof. intros H. rewrite get_set. by destruct (String.eqb_spec j k). Qed.

Lemma get_default_set {V : Type} (dflt : V) (d : Py.dict V) (k j : string) (v : V) :
  Py.get_default dflt (Py.set d k v) j
  = if String.eqb j k then v else Py.get_default dflt d j.
Proof. unfold Py.get_default. rewrite get_set. by destruct (String.eqb j k). Qed.

(** ** [find_ctl_transform_pairs] *)

(** The body of the loop of [find_ctl_transform_pairs]. *)
Lemma find_ctl_transform_pairs_snoc (ctl_transforms : list string) (p : string) :
  find_ctl_transform_pairs (ctl_transforms ++ [p])
  = let pairs := find_ctl_transform_pairs ctl_transforms in
    Py.set pairs (pair_key p).1
      (Py.set (Py.get_default [] pairs (pair_key p).1)
              (pair_slot (pair_key p).2) p).
Proof.
  unfold find_ctl_transform_pairs. rewrite fold_left_app. cbn [fold_left].
  by destruct (pair_key p).
Qed.

Lemma pair_slot_eqb (a b : bool) :
  String.eqb (pair_slot a) (pair_slot b) = Bool.eqb a b.
Proof. by destruct a, b. Qed.

(** Every slot holds the last path filed under it. *)
Lemma find_ctl_transform_pairs_slot (ctl_transforms : list string)
  (basename : string) (is_forward : bool) :
  Py.get (Py.get_default [] (find_ctl_transform_pairs ctl_transforms) basename)
         (pair_slot is_forward)
  = last_filed basename is_forward ctl_transforms.
Proof.
  induction ctl_transforms as [|p l IH] using rev_ind; [reflexivity|].
  rewrite find_ctl_transform_pairs_snoc. cbn zeta.
  unfold last_filed in *. rewrite List.filter_app. cbn [List.filter].
  destruct (pair_key p) as [k f]. cbn [fst snd].
  rewrite get_default_set, (String.eqb_sym basename).
  destruct (String.eqb_spec k basename) as [->|Hb]; cbn [andb].
  - rewrite get_set, pair_slot_eqb.
    destruct f, is_forward; cbn [Bool.eqb];
      by rewrite ?last_snoc, ?app_nil_r.
  - by rewrite app_nil_r.
Qed.

Lemma append_nil_l (s : string) : "" +:+ s = s.
Proof. reflexivity. Qed.

Lemma append_cons (c : ascii) (a s : string) :
  String c a +:+ s = String c (a +:+ s).
Proof. reflexivity. Qed.

Lemma rpartition_slash (directory name : string) :
  Py.rpartition name "/" = None ->
  Py.rpartition (directory +:+ "/" +:+ name) "/" = Some (directory, name).
Proof.
  intros Hname. induction directory as [|c directory IH].
  - rewrite append_nil_l, append_cons, append_nil_l.
    cbn [Py.rpartition]. by rewrite Hname.
  - rewrite append_cons. cbn [Py.rpartition]. by rewrite IH.
Qed.

Lemma basename_in_directory (directory name : string) :
  Py.rpartition name "/" = None ->
  Py.basename (directory +:+ "/" +:+ name) = name.
Proof. intros H. unfold Py.basename. by rewrite rpartition_slash. Qed.

(** C6, as stated, fails twice: the two files of the scenario are filed
    under their common name with the type and the namespace, and nothing
    is filed under [Foo]; and of two forward files with the same basename
    only the later one stays next to the inverse file. *)
Lemma pairs_are_not_keyed_by_bare_name :
  Py.get (find_ctl_transform_pairs
            ["/ctl/Output.Academy.Foo.ctl"; "/ctl/InvOutput.Academy.Foo.ctl"])
         "Foo" = None
  /\ find_ctl_transform_pairs
       ["/ctl/CSC.Academy.ACES_to_Foo.ctl"; "/ctl/CSC.Academy.Foo_to_ACES.ctl";
        "/ctl/CSC.Academy.Foo.ctl"]
     = [("CSC.Academy.Foo",
         [("forward_transform", "/ctl/CSC.Academy.Foo.ctl");
          ("inverse_transform", "/ctl/CSC.Academy.Foo_to_ACES.ctl")])].
Proof. split; reflexivity. Qed.

(** C6, amended.  For every list of paths, the entry of a basename holds
    as [forward_transform] the last forward path and as
    [inverse_transform] the last inverse path that normalize to it, so
    that a basename with both directions present has both slots filled,
    by these two paths; the two files [Output.Academy.Foo.ctl] and
    [InvOutput.Academy.Foo.ctl] of one directory give one entry, keyed
    [Output.Academy.Foo], with both slots filled. *)
Theorem find_ctl_transform_pairs_pairing :
  (forall (ctl_transforms : list string) (basename : string),
     let pairs :=
       Py.get_default [] (find_ctl_transform_pairs ctl_transforms) basename in
     Py.get pairs "forward_transform" = last_filed basename true ctl_transforms
     /\ Py.get pairs "inverse_transform" = last_filed basename false ctl_transforms)
  /\ (forall directory : string,
        find_ctl_transform_pairs
          [directory +:+ "/" +:+ "Output.Academy.Foo.ctl";
           directory +:+ "/" +:+ "InvOutput.Academy.Foo.ctl"]
        = [("Output.Academy.Foo",
            [("forward_transform", directory +:+ "/" +:+ "Output.Academy.Foo.ctl");
             ("inverse_transform", directory +:+ "/" +:+ "InvOutput.Academy.Foo.ctl")])]).
Proof.
  split.
  - intros l b. split.
    + exact (find_ctl_transform_pairs_slot l b true).
    + exact (find_ctl_transform_pairs_slot l b false).
  - intros directory.
    assert (pair_key (directory +:+ "/" +:+ "Output.Academy.Foo.ctl")
            = ("Output.Academy.Foo", true)) as Hf.
    { unfold pair_key. by rewrite basename_in_directory. }
    assert (pair_key (directory +:+ "/" +:+ "InvOutput.Academy.Foo.ctl")
            = ("Output.Academy.Foo", false)) as Hi.
    { unfold pair_key. by rewrite basename_in_directory. }
    unfold find_ctl_transform_pairs. cbn [fold_left]. by rewrite Hf, Hi.
Qed.

(** ** [generate_amf_components] *)

Lemma listed_extend (m : gmap string (list string)) (k : string)
  (vs : list string) (a b : string) :
  listed (AMF.extend m k vs) a b <-> listed m a b \/ (a = k /\ b ∈ vs).
Proof.
  unfold listed, AMF.extend. rewrite lookup_insert.
  destruct (decide (k = a)) as [->|Hne]; cbn [default id]; unfold id.
  - rewrite elem_of_app. intuition.
  - intuition congruence.
Qed.

Lemma listed_append (m : gmap string (list string)) (k v a b : string) :
  listed (AMF.append m k v) a b <-> listed m a b \/ (a = k /\ b = v).
Proof.
  change (AMF.append m k v) with (AMF.extend m k [v]).
  rewrite listed_extend, list_elem_of_singleton. reflexivity.
Qed.

Lemma ex_some_eq {A : Type} (x : A) (P : A -> Prop) :
  (exists y, Some x = Some y /\ P y) <-> P x.
Proof. split; [|by exists x]. by intros (y & [= <-] & H). Qed.

Lemma ex_none_eq {A : Type} (P : A -> Prop) :
  (exists y, @None A = Some y /\ P y) <-> False.
Proof. split; [|done]. by intros (y & [=] & _). Qed.

Lemma listed_register (include : bool) (m : gmap string (list string))
  (t : AMF.transform) (a b : string) :
  listed (AMF.register include m t) a b <-> listed m a b \/ linked include t a b.
Proof.
  unfold AMF.register, linked.
  destruct t as [tid [inv|] previous]; cbn [AMF.transformId AMF.inverseTransformId
    AMF.previousEquivalentTransformIds]; destruct include;
    rewrite ?listed_extend, ?listed_append, ?listed_extend, ?listed_append,
      ?ex_some_eq, ?ex_none_eq;
    split; intuition (discriminate || auto).
Qed.

Lemma listed_fold_register (include : bool) (ts : list AMF.transform)
  (m : gmap string (list string)) (a b : string) :
  listed (fold_left (AMF.register include) ts m) a b
  <-> listed m a b \/ exists t, t ∈ ts /\ linked include t a b.
Proof.
  revert m. induction ts as [|t ts IH]; intros m; cbn [fold_left].
  - split; [auto|]. intros [H|(t & Ht & _)]; [done|]. by apply elem_of_nil in Ht.
  - rewrite IH, listed_register. split.
    + intros [[H|H]|(t' & Ht' & H)]; [by left|right..].
      * exists t. split; [left|done].
      * exists t'. split; [by right|done].
    + intros [H|(t' & Ht' & H)]; [by left; left|].
      apply elem_of_cons in Ht' as [->|Ht']; [by left; right|].
      right. by exists t'.
Qed.

Lemma elem_of_sorted_ids (transform_ids : list string) (b : string) :
  b ∈ AMF.sorted_ids transform_ids <-> b <> "" /\ b ∈ transform_ids.
Proof.
  unfold AMF.sorted_ids.
  rewrite merge_sort_Permutation, elem_of_elements, elem_of_list_to_set.
  by rewrite list_elem_of_filter.
Qed.

(** The component table in terms of the transforms of the JSON data. *)
Lemma related_generate (json_data : AMF.transforms_data) (include : bool)
  (a b : string) :
  related (AMF.generate_amf_components json_data include) a b
  <-> b <> "" /\ exists t, t ∈ concat (Py.values json_data) /\ linked include t a b.
Proof.
  unfold related, AMF.generate_amf_components.
  set (amf := fold_left (AMF.register include) (concat (Py.values json_data)) ∅).
  assert (listed amf a b
          <-> exists t, t ∈ concat (Py.values json_data) /\ linked include t a b)
    as <-.
  { unfold amf. rewrite listed_fold_register. split; [|auto].
    intros [H|H]; [|done]. unfold listed in H. rewrite lookup_empty in H.
    by apply elem_of_nil in H. }
  unfold listed. split.
  - intros (ids & Hids & Hb). rewrite lookup_fmap in Hids.
    destruct (filter _ amf !! a) as [raw|] eqn:Hraw; [|discriminate].
    apply map_lookup_filter_Some in Hraw as [Hraw _].
    injection Hids as <-. apply elem_of_sorted_ids in Hb as [Hne Hb].
    by rewrite Hraw.
  - intros [Hne Hb]. destruct (amf !! a) as [raw|] eqn:Hraw; cbn [default] in Hb.
    + exists (AMF.sorted_ids raw). split; [|by apply elem_of_sorted_ids].
      rewrite lookup_fmap.
      assert (filter (fun item : string * list string => item.2 <> []) amf !! a
              = Some raw) as ->; [|done].
      apply map_lookup_filter_Some. split; [done|]. cbn. intros ->.
      by apply elem_of_nil in Hb.
    + by apply elem_of_nil in Hb.
Qed.

Lemma linked_without_previous_sym (t : AMF.transform) (a b : string) :
  linked false t a b -> linked false t b a.
Proof.
  unfold linked. cbv zeta. intros [H|[H|(inv & Hinv & H)]].
  - left. tauto.
  - by destruct H as [[=] _].
  - right. right. exists inv. intuition discriminate.
Qed.

Lemma linked_with_previous_sym (t : AMF.transform) (a b : string) :
  linked true t a b ->
  linked true t b a
  \/ (b ∈ t.(AMF.previousEquivalentTransformIds)
      /\ (a = t.(AMF.transformId) \/ t.(AMF.inverseTransformId) = Some a)).
Proof.
  unfold linked. cbv zeta. intros [H|[H|(inv & Hinv & [H|[H|[H|H]]])]].
  - left. tauto.
  - right. tauto.
  - left. right. right. exists inv. tauto.
  - left. right. right. exists inv. tauto.
  - left. right. right. exists inv. tauto.
  - right. destruct H as (_ & -> & H). tauto.
Qed.

(** C1, as stated, fails when the previous identifiers are included: a
    previous-equivalent identifier is listed under the transform, and the
    transform is not listed under it. *)
Lemma previous_identifier_is_listed_one_way :
  let graph :=
    AMF.generate_amf_components
      [("v2", [AMF.mk_transform
                 "urn:ampas:aces:transformId:v2.0:Lib.Academy.Tonescale.a2.v1"
                 None
                 ["urn:ampas:aces:transformId:v1.5:Lib.Academy.Tonescale.a1.0.3"]])]
      true in
  related graph
    "urn:ampas:aces:transformId:v2.0:Lib.Academy.Tonescale.a2.v1"
    "urn:ampas:aces:transformId:v1.5:Lib.Academy.Tonescale.a1.0.3"
  /\ ~ related graph
       "urn:ampas:aces:transformId:v1.5:Lib.Academy.Tonescale.a1.0.3"
       "urn:ampas:aces:transformId:v2.0:Lib.Academy.Tonescale.a2.v1".
Proof.
  cbn zeta. rewrite !related_generate. split.
  - split; [discriminate|]. eexists. split; [left|]. right. left.
    repeat split. cbn. left.
  - intros [_ (t & Ht & Hl)]. cbn in Ht.
    apply list_elem_of_singleton in Ht as ->. unfold linked in Hl. cbn in Hl.
    destruct Hl as [[? _]|[(_ & ? & _)|(? & ? & _)]]; discriminate.
Qed.

(** C1, amended.  Without the previous identifiers, the component table
    is symmetric on non-empty identifiers: one is listed under the other
    exactly when the other is listed under it.  With them, it is symmetric
    except towards previous-equivalent identifiers: an identifier listed
    under [a] either lists [a] in turn or is a previous-equivalent
    identifier of a transform of which [a] is the identifier or the
    inverse. *)
Theorem amf_components_symmetry (json_data : AMF.transforms_data)
  (a b : string) :
  a <> "" -> b <> "" ->
  (related (AMF.generate_amf_components json_data false) a b
   <-> related (AMF.generate_amf_components json_data false) b a)
  /\ (related (AMF.generate_amf_components json_data true) a b ->
      related (AMF.generate_amf_components json_data true) b a
      \/ exists t, t ∈ concat (Py.values json_data)
           /\ b ∈ t.(AMF.previousEquivalentTransformIds)
           /\ (a = t.(AMF.transformId) \/ t.(AMF.inverseTransformId) = Some a)).
Proof.
  intros Ha Hb. rewrite !related_generate. split; [split|].
  - intros [_ (t & Ht & Hl)]. split; [done|]. exists t.
    split; [done|]. by apply linked_without_previous_sym.
  - intros [_ (t & Ht & Hl)]. split; [done|]. exists t.
    split; [done|]. by apply linked_without_previous_sym.
  - intros [_ (t & Ht & Hl)].
    destruct (linked_with_previous_sym t a b Hl) as [H|H].
    + left. split; [done|]. by exists t.
    + right. by exists t.
Qed.

Lemma amf_components_symmetry_witness :
  "urn:ampas:aces:transformId:v2.0:Output.Academy.Rec709-D65_100nit_in_Rec709-D65_sRGB-Piecewise.a2.v1"
    <> ""
  /\ "urn:ampas:aces:transformId:v2.0:InvOutput.Academy.Rec709-D65_100nit_in_Rec709-D65_sRGB-Piecewise.a2.v1"
       <> ""
  /\ let json_data :=
       [("v2",
         [AMF.mk_transform
            "urn:ampas:aces:transformId:v2.0:Output.Academy.Rec709-D65_100nit_in_Rec709-D65_sRGB-Piecewise.a2.v1"
            (Some "urn:ampas:aces:transformId:v2.0:InvOutput.Academy.Rec709-D65_100nit_in_Rec709-D65_sRGB-Piecewise.a2.v1")
            []])] in
     let a :=
       "urn:ampas:aces:transformId:v2.0:Output.Academy.Rec709-D65_100nit_in_Rec709-D65_sRGB-Piecewise.a2.v1" in
     let b :=
       "urn:ampas:aces:transformId:v2.0:InvOutput.Academy.Rec709-D65_100nit_in_Rec709-D65_sRGB-Piecewise.a2.v1" in
     (related (AMF.generate_amf_components json_data false) a b
      <-> related (AMF.generate_amf_components json_data false) b a)
     /\ (related (AMF.generate_amf_components json_data true) a b ->
         related (AMF.generate_amf_components json_data true) b a
         \/ exists t, t ∈ concat (Py.values json_data)
              /\ b ∈ t.(AMF.previousEquivalentTransformIds)
              /\ (a = t.(AMF.transformId) \/ t.(AMF.inverseTransformId) = Some a)).
Proof.
  split; [discriminate|]. split; [discriminate|].
  cbv zeta. apply amf_components_symmetry; discriminate.
Defined.

Lemma self_listed_extend (m : gmap string (list string)) (k : string)
  (vs : list string) :
  self_listed m -> is_Some (m !! k) \/ k ∈ vs -> self_listed (AMF.extend m k vs).
Proof.
  intros Hm Hk a raw. unfold AMF.extend. rewrite lookup_insert.
  destruct (decide (k = a)) as [->|Hne]; [|apply Hm].
  intros [= <-]. apply elem_of_app.
  destruct Hk as [[old Hold]|Hk]; [left|by right].
  rewrite Hold. by apply Hm.
Qed.

Lemma is_Some_extend (m : gmap string (list string)) (k j : string)
  (vs : list string) :
  j = k \/ is_Some (m !! j) -> is_Some (AMF.extend m k vs !! j).
Proof.
  unfold AMF.extend. rewrite lookup_insert.
  destruct (decide (k = j)); [eauto|]. intros [->|H]; [done|exact H].
Qed.

Lemma self_listed_register (include : bool) (m : gmap string (list string))
  (t : AMF.transform) :
  self_listed m -> self_listed (AMF.register include m t).
Proof.
  intros Hm. unfold AMF.register.
  change AMF.append with (fun m k v => AMF.extend m k [v]). cbv beta.
  set (tid := AMF.transformId t).
  set (m1 := AMF.extend m tid [tid]).
  assert (self_listed m1) as H1.
  { apply self_listed_extend; [done|]. right. left. }
  assert (is_Some (m1 !! tid)) as S1 by (apply is_Some_extend; by left).
  set (m2 := if include then AMF.extend m1 tid _ else m1).
  assert (self_listed m2 /\ is_Some (m2 !! tid)) as [H2 S2].
  { unfold m2. destruct include; [|done]. split.
    - apply self_listed_extend; [done|by left].
    - apply is_Some_extend. by left. }
  destruct (AMF.inverseTransformId t) as [inv|]; [|done].
  set (m3 := AMF.extend m2 inv [inv]).
  assert (self_listed m3) as H3.
  { apply self_listed_extend; [done|]. right. left. }
  assert (is_Some (m3 !! inv)) as S3 by (apply is_Some_extend; by left).
  assert (is_Some (m3 !! tid)) as S3' by (apply is_Some_extend; by right).
  set (m4 := AMF.extend m3 inv [tid]).
  assert (self_listed m4) as H4 by (apply self_listed_extend; [done|by left]).
  assert (is_Some (m4 !! tid)) as S4 by (apply is_Some_extend; by right).
  assert (is_Some (m4 !! inv)) as S4' by (apply is_Some_extend; by left).
  set (m5 := AMF.extend m4 tid [inv]).
  assert (self_listed m5) as H5 by (apply self_listed_extend; [done|by left]).
  assert (is_Some (m5 !! inv)) as S5 by (apply is_Some_extend; by right).
  destruct include; [|done].
  apply self_listed_extend; [done|by left].
Qed.

Lemma self_listed_fold (include : bool) (ts : list AMF.transform)
  (m : gmap string (list string)) :
  self_listed m -> self_listed (fold_left (AMF.register include) ts m).
Proof.
  revert m. induction ts as [|t ts IH]; intros m Hm; [done|].
  cbn [fold_left]. by apply IH, self_listed_register.
Qed.

(** Only the empty identifier can be a key with an empty list. *)
Lemma key_is_in_its_own_components (json_data : AMF.transforms_data)
  (include : bool) (key : string) (transform_ids : list string) :
  AMF.generate_amf_components json_data include !! key = Some transform_ids ->
  key <> "" -> key ∈ transform_ids.
Proof.
  unfold AMF.generate_amf_components. rewrite lookup_fmap.
  destruct (filter _ _ !! key) as [raw|] eqn:Hraw; [|discriminate].
  intros [= <-] Hne. apply map_lookup_filter_Some in Hraw as [Hraw _].
  apply elem_of_sorted_ids. split; [done|].
  eapply self_listed_fold; [|exact Hraw]. intros a l. by rewrite lookup_empty.
Qed.

(** C9.  A transform whose identifier is the empty string: the test that
    drops entries reads the accumulated list, which holds the empty
    string, and not the sorted set, from which the empty string has been
    removed; the key stays, with an empty list. *)
Theorem empty_identifier_keeps_an_empty_entry :
  AMF.generate_amf_components [("v2", [AMF.mk_transform "" None []])] false !! ""
  = Some []
  /\ AMF.generate_amf_components [("v2", [AMF.mk_transform "" None []])] true !! ""
     = Some [].
Proof. split; vm_compute; reflexivity. Qed.

(** ** Replacing and splitting *)

Lemma append_assoc (a b c : string) : (a +:+ b) +:+ c = a +:+ b +:+ c.
Proof.
  induction a as [|x a IH]; [reflexivity|].
  rewrite !append_cons. by rewrite IH.
Qed.

Lemma startswith_append (old rest : string) :
  Py.startswith (old +:+ rest) old = true.
Proof.
  induction old as [|c old IH]; [reflexivity|].
  rewrite append_cons. cbn [Py.startswith]. by rewrite Ascii.eqb_refl.
Qed.

Lemma replace_from_skip (s rest old new : string) :
  Py.replace_from (String.length s) (s +:+ rest) old new
  = Py.replace_from 0 rest old new.
Proof.
  induction s as [|c s IH]; [reflexivity|].
  rewrite append_cons. exact IH.
Qed.

Lemma replace_absent (s old new : string) :
  Py.contains s old = false -> Py.replace s old new = s.
Proof.
  unfold Py.replace. induction s as [|c s IH]; [reflexivity|].
  cbn [Py.contains Py.replace_from].
  intros [Hs Hc]%orb_false_iff. rewrite Hs. by rewrite IH.
Qed.

(** A leading occurrence is removed, and nothing else when the rest holds
    no occurrence. *)
Lemma replace_prefix (old rest : string) :
  old <> "" ->
  Py.contains rest old = false ->
  Py.replace (old +:+ rest) old "" = rest.
Proof.
  intros Hold Hrest. destruct old as [|c old]; [done|].
  unfold Py.replace. rewrite append_cons. cbn [Py.replace_from].
  rewrite <- append_cons, startswith_append, append_nil_l.
  replace (String.length (String c old) - 1) with (String.length old)
    by (cbn [String.length]; lia).
  rewrite replace_from_skip. by apply replace_absent.
Qed.

Lemma split_from_absent (seg : string) :
  Py.contains seg "/" = false -> Py.split_from 0 seg "/" = (seg, []).
Proof.
  induction seg as [|c seg IH]; [reflexivity|].
  cbn [Py.contains Py.split_from]. intros [Hs Hc]%orb_false_iff.
  rewrite Hs. by rewrite (IH Hc).
Qed.

Lemma split_from_segment (seg rest : string) :
  Py.contains seg "/" = false ->
  Py.split_from 0 (seg +:+ "/" +:+ rest) "/" = (seg, Py.split rest "/").
Proof.
  induction seg as [|c seg IH].
  - intros _. rewrite append_nil_l, append_cons, append_nil_l. reflexivity.
  - cbn [Py.contains]. intros [Hs Hc]%orb_false_iff.
    rewrite append_cons. cbn [Py.split_from].
    assert (Py.startswith (String c (seg +:+ "/" +:+ rest)) "/" = false) as ->.
    { cbn [Py.startswith] in *. by destruct (Ascii.eqb "/" c). }
    by rewrite (IH Hc).
Qed.

(** Splitting what was joined gives the segments back. *)
Lemma split_join (seg : string) (segs : list string) :
  Forall (fun s => Py.contains s "/" = false) (seg :: segs) ->
  Py.split (Py.join "/" (seg :: segs)) "/" = seg :: segs.
Proof.
  revert seg. induction segs as [|seg' segs IH]; intros seg Hall.
  - cbn [Py.join]. unfold Py.split. rewrite split_from_absent; [done|].
    by apply Forall_inv in Hall.
  - change (Py.join "/" (seg :: seg' :: segs))
      with (seg +:+ "/" +:+ Py.join "/" (seg' :: segs)).
    unfold Py.split at 1. rewrite split_from_segment.
    + rewrite IH; [done|]. by apply Forall_inv_tail in Hall.
    + by apply Forall_inv in Hall.
Qed.

Lemma startswith_char (s : string) (c : ascii) :
  Py.startswith s (String c "")
  = match s with
    | String a _ => Ascii.eqb c a
    | EmptyString => false
    end.
Proof.
  destruct s as [|a s]; cbn [Py.startswith]; [done|].
  by destruct (Ascii.eqb c a).
Qed.

(** Joining what was split gives the text back. *)
Lemma join_split_char (c : ascii) (s : string) :
  Py.join (String c "") (Py.split s (String c "")) = s.
Proof.
  unfold Py.split. induction s as [|a s IH]; [reflexivity|].
  cbn [Py.split_from]. rewrite startswith_char.
  change (String.length (String c "") - 1) with 0.
  destruct (Py.split_from 0 s (String c "")) as [p r].
  destruct (Ascii.eqb_spec c a) as [->|Hne].
  - change (Py.join (String a "") ("" :: p :: r))
      with ("" +:+ String a "" +:+ Py.join (String a "") (p :: r)).
    by rewrite IH.
  - destruct r as [|q r].
    + cbn [Py.join] in IH |- *. by rewrite IH.
    + change (Py.join (String c "") (String a p :: q :: r))
        with (String a p +:+ String c "" +:+ Py.join (String c "") (q :: r)).
      change (Py.join (String c "") (p :: q :: r))
        with (p +:+ String c "" +:+ Py.join (String c "") (q :: r)) in IH.
      by rewrite append_cons, IH.
Qed.





(** ** Family and genus *)

Lemma family_of_table :
  family_of "aces-core" = "lib"
  /\ family_of "aces-input-and-colorspaces" = "csc"
  /\ family_of "aces-look" = "look"
  /\ family_of "aces-output" = "output".
Proof. repeat split. Qed.

Lemma family_of_unmapped (part : string) :
  part ∉ Py.keys TRANSFORM_FAMILIES_CTL -> family_of part = part.
Proof.
  intros Hpart. unfold family_of, Py.get_default.
  destruct (Py.get TRANSFORM_FAMILIES_CTL part) as [v|] eqn:Hget; [|done].
  exfalso. apply Hpart. cbn in Hget |- *.
  repeat match type of Hget with
    | (if String.eqb ?a ?b then _ else _) = _ =>
        destruct (String.eqb_spec a b) as [->|_]; [set_solver|]
    end.
  discriminate.
Qed.

Lemma map_family_of_unmapped (parts : list string) :
  Forall (fun part => part ∉ Py.keys TRANSFORM_FAMILIES_CTL) parts ->
  map family_of parts = parts.
Proof.
  induction 1 as [|part parts Hpart _ IH]; [done|].
  cbn [map]. by rewrite family_of_unmapped, IH.
Qed.

(** The derivation never raises. *)
Lemma family_genus_returns (root_directory directory : string) :
  exists family genus,
    family_genus root_directory directory = Py.Return (family, genus).
Proof.
  unfold family_genus.
  destruct (split_cons (Py.replace directory (root_directory +:+ os_sep) "") os_sep)
    as (p & r & ->).
  cbn [map]. eauto.
Qed.


Lemma family_genus_segments (root_directory family_segment : string)
  (genus_segments : list string) :
  Forall (fun s => Py.contains s "/" = false) (family_segment :: genus_segments) ->
  Py.contains (Py.join "/" (family_segment :: genus_segments))
              (root_directory +:+ "/") = false ->
  family_genus root_directory
    (root_directory +:+ "/" +:+ Py.join "/" (family_segment :: genus_segments))
  = Py.Return
      (family_of family_segment,
       match genus_segments with
       | [] => VALUE_DEFAULT_UNDEFINED
       | _ => Py.join "/" (map family_of genus_segments)
       end).
Proof.
  intros Hsegs Hroot. unfold family_genus, os_sep.
  rewrite <- append_assoc, replace_prefix.
  - rewrite split_join by done. cbn [map]. by destruct genus_segments.
  - by destruct root_directory.
  - done.
Qed.

(** The root directory is taken out wherever it occurs, and the root
    directory itself is split like any other path. *)
Lemma root_directory_is_taken_out_everywhere :
  family_genus "/ctl" "/ctl/aces-output/ctl/p3"
  = Py.Return ("aces-outputp3", "undefined")
  /\ family_genus "/ctl" "/ctl" = Py.Return ("", "ctl").
Proof. split; reflexivity. Qed.



(** Where no segment of the remainder is a table name, the genus is the
    raw remainder. *)
Lemma genus_of_unmapped_segments (root_directory family_segment : string)
  (genus_segments : list string) :
  Forall (fun s => Py.contains s "/" = false) (family_segment :: genus_segments) ->
  Py.contains (Py.join "/" (family_segment :: genus_segments))
              (root_directory +:+ "/") = false ->
  Forall (fun part => part ∉ Py.keys TRANSFORM_FAMILIES_CTL) genus_segments ->
  genus_segments <> [] ->
  family_genus root_directory
    (root_directory +:+ "/" +:+ Py.join "/" (family_segment :: genus_segments))
  = Py.Return (family_of family_segment, Py.join "/" genus_segments).
Proof.
  intros Hsegs Hroot Hraw Hne.
  rewrite (family_genus_segments root_directory family_segment
             genus_segments Hsegs Hroot).
  rewrite (map_family_of_unmapped _ Hraw). by destruct genus_segments.
Qed.

(** ** What a dictionary holds, up to the order *)

Lemma perm_cancel2 {A : Type} (b b' c c' old new : list A) :
  b' ++ c ≡ₚ b ++ c' ->
  c' ++ old ≡ₚ c ++ new ->
  b' ++ old ≡ₚ b ++ new.
Proof.
  intros H2 H3. apply (Permutation_app_inv_r c).
  trans ((b' ++ c) ++ old); [solve_Permutation|]. rewrite H2.
  trans (b ++ (c' ++ old)); [solve_Permutation|]. rewrite H3.
  solve_Permutation.
Qed.

Lemma perm_cancel3 {A : Type} (a a' b b' c c' old new : list A) :
  a' ++ b ≡ₚ a ++ b' ->
  b' ++ c ≡ₚ b ++ c' ->
  c' ++ old ≡ₚ c ++ new ->
  a' ++ old ≡ₚ a ++ new.
Proof.
  intros H1 H2 H3. eapply perm_cancel2; [exact H1|].
  eapply perm_cancel2; [exact H2|exact H3].
Qed.

(** Setting a key adds the new value and takes away the old one. *)
Lemma set_contents {V A : Type} (f : V -> list A) (d : Py.dict V)
  (k : string) (v : V) :
  flat_map f (Py.values (Py.set d k v)) ++ from_option f [] (Py.get d k)
  ≡ₚ flat_map f (Py.values d) ++ f v.
Proof.
  induction d as [|[k' v'] d IH]; cbn [Py.set Py.get Py.values map flat_map].
  - cbn [from_option]. solve_Permutation.
  - destruct (String.eqb_spec k k') as [->|Hk];
      cbn [Py.values map flat_map from_option].
    + solve_Permutation.
    + fold (Py.values (Py.set d k v)) (Py.values d).
      trans (f v' ++ (flat_map f (Py.values (Py.set d k v))
                      ++ from_option f [] (Py.get d k))); [solve_Permutation|].
      rewrite IH. solve_Permutation.
Qed.

Lemma from_option_get_default {V A : Type} (f : V -> list A) (dflt : V)
  (d : Py.dict V) (k : string) :
  f dflt = [] -> from_option f [] (Py.get d k) = f (Py.get_default dflt d k).
Proof. intros H. unfold Py.get_default. by destruct (Py.get d k). Qed.

(** ** The contents of a taxonomy *)

Lemma set_entry_contents (classified : taxonomy)
  (family genus basename : string) (ctl_transform : entry) :
  unclassify_ctl_transforms
    (set_entry classified family genus basename ctl_transform)
  ++ from_option unclassify_entry []
       (taxonomy_get classified family genus basename)
  ≡ₚ unclassify_ctl_transforms classified ++ unclassify_entry ctl_transform.
Proof.
  unfold unclassify_ctl_transforms, set_entry, taxonomy_get.
  set (c1 := fun ctl_transforms : Py.dict entry =>
               flat_map unclassify_entry (Py.values ctl_transforms)).
  set (c2 := fun genera : Py.dict (Py.dict entry) =>
               flat_map c1 (Py.values genera)).
  set (genera := Py.get_default [] classified family).
  set (ctl_transforms := Py.get_default [] genera genus).
  set (ctl_transforms' := Py.set ctl_transforms basename ctl_transform).
  set (genera' := Py.set genera genus ctl_transforms').
  pose proof (set_contents c2 classified family genera') as H3.
  rewrite (from_option_get_default c2 [] classified family eq_refl) in H3.
  pose proof (set_contents c1 genera genus ctl_transforms') as H2.
  rewrite (from_option_get_default c1 [] genera genus eq_refl) in H2.
  pose proof (set_contents unclassify_entry ctl_transforms basename ctl_transform)
    as H1.
  exact (perm_cancel3 _ _ _ _ _ _ _ _ H3 H2 H1).
Qed.

Lemma taxonomy_get_set_entry_ne (classified : taxonomy)
  (family genus basename family' genus' basename' : string)
  (ctl_transform : entry) :
  (family', genus', basename') <> (family, genus, basename) ->
  taxonomy_get (set_entry classified family genus basename ctl_transform)
    family' genus' basename'
  = taxonomy_get classified family' genus' basename'.
Proof.
  intros Hne. unfold taxonomy_get, set_entry. rewrite get_default_set.
  destruct (String.eqb_spec family' family) as [->|Hf]; [|done].
  rewrite get_default_set.
  destruct (String.eqb_spec genus' genus) as [->|Hg]; [|done].
  rewrite get_set.
  destruct (String.eqb_spec basename' basename) as [->|Hb]; [|done].
  by destruct Hne.
Qed.

(** ** [CTLTransform] *)

Lemma parse_header_path (lines : list string) (self t : CTLTransform.t) :
  CTLTransform.parse_header lines self = Py.Return t ->
  CTLTransform.path t = CTLTransform.path self.
Proof.
  revert self. induction lines as [|line lines IH]; intros self;
    cbn [CTLTransform.parse_header].
  - by intros [= <-].
  - destruct (re_search_tag "ACEStransformID" line) as [group|].
    { destruct (ACESTransformID.__init__ group) as [id|e];
        [rewrite bind_return|by rewrite bind_raise].
      intros H. by rewrite (IH _ H). }
    destruct (re_search_tag "ACESuserName" line) as [group|].
    { intros H. by rewrite (IH _ H). }
    destruct (Py.startswith line "//").
    + intros H. by rewrite (IH _ H).
    + by intros [= <-].
Qed.

(** A record holds the absolute path of the file it was made from. *)
Lemma init_path (read_file : string -> option string) (abspath : string -> string)
  (path family genus : string) (t : CTLTransform.t) :
  CTLTransform.__init__ read_file abspath path family genus = Py.Return t ->
  CTLTransform.path t = abspath path.
Proof.
  unfold CTLTransform.__init__, CTLTransform._parse.
  cbn [CTLTransform.path].
  destruct (read_file (abspath path)) as [content|]; [|discriminate].
  destruct (CTLTransform.parse_header _ _) as [self|e] eqn:Hparse;
    [rewrite bind_return|by rewrite bind_raise].
  intros [= <-]. cbn [CTLTransform.set_description CTLTransform.path].
  by rewrite (parse_header_path _ _ _ Hparse).
Qed.

(** ** [classify_aces_ctl_transforms] *)

Lemma one_or_two_values (pairs : Py.dict string) :
  one_or_two pairs -> length (Py.values pairs) = 1 \/ length (Py.values pairs) = 2.
Proof. intros (p & q & [-> | [-> | [-> | ->]]]); cbn; auto. Qed.

Lemma two_slots (k1 k2 p1 p2 fp ip : string) :
  Py.get [(k1, p1); (k2, p2)] "forward_transform" = Some fp ->
  Py.get [(k1, p1); (k2, p2)] "inverse_transform" = Some ip ->
  [fp; ip] ≡ₚ [p1; p2].
Proof.
  cbn [Py.get].
  destruct (String.eqb_spec "forward_transform" k1) as [Hf1 | Hf1];
    destruct (String.eqb_spec "inverse_transform" k1) as [Hi1 | Hi1];
    destruct (String.eqb_spec "forward_transform" k2) as [Hf2 | Hf2];
    destruct (String.eqb_spec "inverse_transform" k2) as [Hi2 | Hi2];
    subst; try discriminate; intros [= <-] [= <-];
    solve_Permutation.
Qed.

(** One assignment: the slot takes the records of the paths found for the
    basename, what it held before is dropped, and the other slots are left
    as they are. *)
Lemma classify_pairs_contents (read_file : string -> option string)
  (abspath : string -> string) (family genus basename : string)
  (pairs : Py.dict string) (classified classified' : taxonomy) :
  classify_pairs read_file abspath family genus classified (basename, pairs)
  = Py.Return classified' ->
  (forall family' genus' basename',
     (family', genus', basename') <> (family, genus, basename) ->
     taxonomy_get classified' family' genus' basename'
     = taxonomy_get classified family' genus' basename')
  /\ exists dropped,
       classified_paths classified' ++ dropped
       ≡ₚ classified_paths classified ++ map abspath (Py.values pairs)
       /\ (taxonomy_get classified family genus basename = None ->
           one_or_two pairs -> dropped = []).
Proof.
  unfold classify_pairs, classified_paths.
  pose proof (set_entry_contents classified family genus basename) as Hset.
  set (old := from_option unclassify_entry []
                (taxonomy_get classified family genus basename)) in *.
  assert (taxonomy_get classified family genus basename = None ->
          map CTLTransform.path old = []) as Hold.
  { unfold old. by intros ->. }
  destruct pairs as [|[k1 p1] [|[k2 p2] [|item pairs]]];
    cbn [Py.values map snd].
  - intros [= <-]. split; [done|]. by exists [].
  - destruct (CTLTransform.__init__ read_file abspath p1 family genus) as [t|e] eqn:Ht;
      [rewrite bind_return|by rewrite bind_raise].
    intros [= <-]. split; [intros; by apply taxonomy_get_set_entry_ne|].
    exists (map CTLTransform.path old). split; [|auto].
    rewrite <- map_app, (Hset (Single t)), map_app. cbn [unclassify_entry map].
    by rewrite (init_path _ _ _ _ _ _ Ht).
  - unfold Py.getitem.
    destruct (Py.get _ "forward_transform") as [fp|] eqn:Hfp;
      [rewrite bind_return|by rewrite bind_raise].
    destruct (CTLTransform.__init__ read_file abspath fp family genus)
      as [tf|e] eqn:Htf; [rewrite bind_return|by rewrite bind_raise].
    destruct (Py.get _ "inverse_transform") as [ip|] eqn:Hip;
      [rewrite bind_return|by rewrite bind_raise].
    destruct (CTLTransform.__init__ read_file abspath ip family genus)
      as [ti|e] eqn:Hti; [rewrite bind_return|by rewrite bind_raise].
    intros [= <-]. split; [intros; by apply taxonomy_get_set_entry_ne|].
    exists (map CTLTransform.path old). split; [|auto].
    rewrite <- map_app, Hset, map_app.
    cbn [unclassify_entry map CTLTransformPair.forward_transform
         CTLTransformPair.inverse_transform CTLTransform.append_sibling
         CTLTransform.path].
    rewrite (init_path _ _ _ _ _ _ Htf), (init_path _ _ _ _ _ _ Hti).
    apply Permutation_app_head.
    change [abspath fp; abspath ip] with (map abspath [fp; ip]).
    change [abspath p1; abspath p2] with (map abspath [p1; p2]).
    apply Permutation_map. by apply (two_slots k1 k2).
  - intros [= <-]. split; [done|].
    exists (map abspath (p1 :: p2 :: item.2 :: map snd pairs)). split; [done|].
    intros _ Hshape%one_or_two_values. cbn in Hshape. lia.
Qed.

Lemma for_each_app {A S : Type} (body : S -> A -> Py.result S) (xs ys : list A)
  (acc : S) :
  Py.for_each body (xs ++ ys) acc
  = Py.for_each body xs acc ≫= Py.for_each body ys.
Proof.
  revert acc. induction xs as [|x xs IH]; intros acc; [reflexivity|].
  cbn [app Py.for_each]. destruct (body acc x) as [acc'|e]; [|reflexivity].
  exact (IH acc').
Qed.

Lemma for_each_map {A B S : Type} (g : B -> A) (body : S -> A -> Py.result S)
  (xs : list B) (acc : S) :
  Py.for_each body (map g xs) acc
  = Py.for_each (fun acc x => body acc (g x)) xs acc.
Proof.
  revert acc. induction xs as [|x xs IH]; intros acc; [reflexivity|].
  cbn [map Py.for_each]. destruct (body acc (g x)) as [acc'|e]; [|reflexivity].
  exact (IH acc').
Qed.

Lemma family_genus_is_family_genus_of (root_directory directory : string) :
  family_genus root_directory directory
  = Py.Return (family_genus_of root_directory directory).
Proof.
  unfold family_genus_of.
  by destruct (family_genus_returns root_directory directory) as (f & g & ->).
Qed.

(** The two nested loops go through the assignments in order. *)
Lemma classify_as_assignments (read_file : string -> option string)
  (abspath : string -> string) (paths_common_ancestor : list string -> string)
  (unclassified : Py.dict (list string)) :
  classify_aces_ctl_transforms read_file abspath paths_common_ancestor unclassified
  = Py.for_each (assign read_file abspath)
      (assignments (paths_common_ancestor (concat (Py.values unclassified)))
                   unclassified)
      [].
Proof.
  unfold classify_aces_ctl_transforms, assignments, Py.items.
  generalize (paths_common_ancestor (concat (Py.values unclassified))) as root.
  intros root. generalize ([] : taxonomy) as classified.
  induction unclassified as [|[directory ctl_transforms] unclassified IH];
    intros classified; [reflexivity|].
  cbn [Py.for_each flat_map]. rewrite for_each_app, for_each_map.
  unfold classify_directory at 1. rewrite family_genus_is_family_genus_of.
  rewrite bind_return.
  destruct (family_genus_of root directory) as [family genus].
  change (fun acc x => assign read_file abspath acc (family, genus, x))
    with (classify_pairs read_file abspath family genus).
  unfold Py.items.
  destruct (Py.for_each (classify_pairs read_file abspath family genus) _ _)
    as [classified'|e]; [|reflexivity].
  rewrite !bind_return. apply IH.
Qed.

(** The assignments in a row: every record of the result is the record of
    an assigned path, and every assigned path has its record when the
    slots are distinct, free at the start, and hold one or two paths. *)
Lemma assignments_contents (read_file : string -> option string)
  (abspath : string -> string)
  (todo : list ((string * string) * (string * Py.dict string)))
  (classified classified' : taxonomy) :
  Py.for_each (assign read_file abspath) todo classified = Py.Return classified' ->
  exists dropped,
    classified_paths classified' ++ dropped
    ≡ₚ classified_paths classified ++ map abspath (flat_map assigned_paths todo)
    /\ (NoDup (map assigned_slot todo) ->
        Forall (fun a => taxonomy_get classified a.1.1 a.1.2 a.2.1 = None) todo ->
        Forall (fun a => one_or_two a.2.2) todo ->
        dropped = []).
Proof.
  revert classified.
  induction todo as [|[[family genus] [basename pairs]] todo IH];
    intros classified; cbn [Py.for_each].
  - intros [= <-]. exists []. split; [|done]. cbn [flat_map map]. done.
  - unfold assign at 1. cbn [fst snd].
    destruct (classify_pairs read_file abspath family genus classified
                (basename, pairs)) as [classified1|e] eqn:Hstep; [|discriminate].
    change (Py.bind (Py.Return classified1) ?k) with (k classified1).
    intros Hrest.
    destruct (classify_pairs_contents _ _ _ _ _ _ _ _ Hstep)
      as (Hother & d1 & Hperm1 & Hempty1).
    destruct (IH classified1 Hrest) as (d2 & Hperm2 & Hempty2).
    exists (d2 ++ d1). split.
    + cbn [flat_map]. unfold assigned_paths at 1. cbn [fst snd].
      rewrite map_app.
      trans ((classified_paths classified' ++ d2) ++ d1); [solve_Permutation|].
      rewrite Hperm2.
      trans ((classified_paths classified1 ++ d1)
             ++ map abspath (flat_map assigned_paths todo)); [solve_Permutation|].
      rewrite Hperm1. solve_Permutation.
    + cbn [map]. intros Hnodup Hfree Hshape.
      apply NoDup_cons in Hnodup as [Hnew Hnodup].
      apply Forall_cons in Hfree as [Hfree1 Hfree].
      apply Forall_cons in Hshape as [Hshape1 Hshape].
      cbn [fst snd] in Hfree1, Hshape1.
      rewrite (Hempty1 Hfree1 Hshape1), app_nil_r.
      apply Hempty2; [done| |done].
      apply Forall_forall. intros [[f' g'] [b' pairs']] Hin. cbn [fst snd].
      rewrite Hother.
      * rewrite Forall_forall in Hfree. exact (Hfree _ Hin).
      * intros [= -> -> ->]. apply Hnew.
        apply list_elem_of_fmap. eexists. split; [|exact Hin]. reflexivity.
Qed.

(** ** What [find_ctl_transform_pairs] holds *)

Lemma flat_map_singleton {A : Type} (l : list A) :
  flat_map (fun x => [x]) l = l.
Proof. induction l as [|x l IH]; [done|]. cbn [flat_map app]. by rewrite IH. Qed.

Lemma last_filed_none (basename : string) (is_forward : bool)
  (ctl_transforms : list string) :
  (basename, is_forward) ∉ map pair_key ctl_transforms ->
  last_filed basename is_forward ctl_transforms = None.
Proof.
  unfold last_filed. intros Hnot.
  assert (List.filter
            (fun ctl_transform =>
               String.eqb (pair_key ctl_transform).1 basename
               && Bool.eqb (pair_key ctl_transform).2 is_forward)
            ctl_transforms = []) as ->; [|done].
  induction ctl_transforms as [|p l IH]; [done|].
  cbn [map] in Hnot. apply not_elem_of_cons in Hnot as [Hp Hl].
  cbn [List.filter]. rewrite (IH Hl).
  destruct (pair_key p) as [k f]. cbn [fst snd].
  destruct (String.eqb_spec k basename) as [->|]; [|done].
  destruct (Bool.eqb_spec f is_forward) as [->|]; [|done].
  by destruct Hp.
Qed.

(** Every path is filed once, a path that is overwritten apart. *)
Lemma find_ctl_transform_pairs_contents (ctl_transforms : list string) :
  exists dropped,
    flat_map Py.values (Py.values (find_ctl_transform_pairs ctl_transforms))
    ++ dropped ≡ₚ ctl_transforms
    /\ (NoDup (map pair_key ctl_transforms) -> dropped = []).
Proof.
  induction ctl_transforms as [|p l (dropped & Hperm & Hempty)] using rev_ind.
  - exists []. by split.
  - rewrite find_ctl_transform_pairs_snoc. cbv zeta.
    pose proof (find_ctl_transform_pairs_slot l (pair_key p).1 (pair_key p).2)
      as Hslot.
    set (pairs := find_ctl_transform_pairs l) in *.
    set (slots := Py.get_default [] pairs (pair_key p).1) in *.
    set (slots' := Py.set slots (pair_slot (pair_key p).2) p).
    pose proof (set_contents Py.values pairs (pair_key p).1 slots') as Houter.
    rewrite (from_option_get_default Py.values [] pairs _ eq_refl) in Houter.
    fold slots in Houter.
    pose proof (set_contents (fun v => [v]) slots (pair_slot (pair_key p).2) p)
      as Hinner.
    rewrite !flat_map_singleton in Hinner. fold slots' in Hinner.
    pose proof (perm_cancel2 _ _ _ _ _ _ Houter Hinner) as Hstep.
    set (old := from_option (fun v => [v]) []
                  (Py.get slots (pair_slot (pair_key p).2))) in *.
    exists (old ++ dropped). split.
    + trans ((flat_map Py.values
                (Py.values (Py.set pairs (pair_key p).1 slots')) ++ old)
             ++ dropped); [solve_Permutation|].
      rewrite Hstep.
      trans ((flat_map Py.values (Py.values pairs) ++ dropped) ++ [p]);
        [solve_Permutation|].
      by rewrite Hperm.
    + rewrite map_app. cbn [map]. intros Hnodup.
      apply NoDup_app in Hnodup as (Hl & Hnew & _).
      rewrite (Hempty Hl), app_nil_r. unfold old. rewrite Hslot.
      rewrite last_filed_none; [done|].
      intros Hin. apply (Hnew _ Hin). destruct (pair_key p). left.
Qed.

Lemma get_Forall {V : Type} (P : V -> Prop) (d : Py.dict V) (k : string) (v : V) :
  Forall (fun item => P item.2) d -> Py.get d k = Some v -> P v.
Proof.
  induction 1 as [|[k' v'] d Hv _ IH]; cbn [Py.get]; [discriminate|].
  destruct (String.eqb k k'); [by intros [= <-]|exact IH].
Qed.

Lemma Forall_set {V : Type} (P : V -> Prop) (d : Py.dict V) (k : string) (v : V) :
  Forall (fun item => P item.2) d -> P v ->
  Forall (fun item => P item.2) (Py.set d k v).
Proof.
  intros Hd Hv. induction Hd as [|[k' v'] d Hv' Hd IH]; cbn [Py.set].
  - by constructor.
  - destruct (String.eqb k k'); by constructor.
Qed.

Lemma one_or_two_set (pairs : Py.dict string) (is_forward : bool) (p : string) :
  pairs = [] \/ one_or_two pairs ->
  one_or_two (Py.set pairs (pair_slot is_forward) p).
Proof.
  unfold one_or_two.
  intros [-> |(p' & q' & [-> | [-> | [-> | ->]]])]; destruct is_forward;
    cbn;
    first [ by (eexists; exists p; left)
          | by (eexists; exists p; right; left)
          | by (eexists; exists p; right; right; left)
          | by (eexists; exists p; right; right; right)
          | by (eexists; eexists; right; right; left)
          | by (eexists; eexists; right; right; right) ].
Qed.

(** Every basename holds one or two paths. *)
Lemma find_ctl_transform_pairs_shapes (ctl_transforms : list string) :
  Forall (fun item => one_or_two item.2) (find_ctl_transform_pairs ctl_transforms).
Proof.
  induction ctl_transforms as [|p l IH] using rev_ind; [constructor|].
  rewrite find_ctl_transform_pairs_snoc. cbv zeta.
  apply (Forall_set one_or_two); [exact IH|].
  apply one_or_two_set. unfold Py.get_default.
  destruct (Py.get _ _) as [pairs|] eqn:Hget; [right|by left].
  exact (get_Forall one_or_two _ _ _ IH Hget).
Qed.

Lemma assignments_cons (root_directory directory : string)
  (ctl_transforms : list string) (unclassified : Py.dict (list string)) :
  assignments root_directory ((directory, ctl_transforms) :: unclassified)
  = map (fun item => (family_genus_of root_directory directory, item))
        (find_ctl_transform_pairs ctl_transforms)
    ++ assignments root_directory unclassified.
Proof. reflexivity. Qed.

Lemma assigned_paths_of_directory (family_and_genus : string * string)
  (pairs : Py.dict (Py.dict string)) :
  flat_map assigned_paths (map (fun item => (family_and_genus, item)) pairs)
  = flat_map Py.values (Py.values pairs).
Proof.
  induction pairs as [|[basename slots] pairs IH]; [done|].
  cbn [map flat_map Py.values]. unfold assigned_paths at 1. cbn [fst snd].
  by rewrite IH.
Qed.

(** Every discovered path is assigned once, a path that is overwritten in
    its directory apart. *)
Lemma assignments_paths (root_directory : string)
  (unclassified : Py.dict (list string)) :
  exists dropped,
    flat_map assigned_paths (assignments root_directory unclassified) ++ dropped
    ≡ₚ concat (Py.values unclassified)
    /\ (Forall (fun item : string * list string => NoDup (map pair_key item.2))
               (Py.items unclassified) ->
        dropped = []).
Proof.
  induction unclassified as [|[directory ctl_transforms] unclassified
                               (d2 & Hperm2 & Hempty2)].
  - exists []. by split.
  - destruct (find_ctl_transform_pairs_contents ctl_transforms)
      as (d1 & Hperm1 & Hempty1).
    exists (d1 ++ d2). split.
    + rewrite assignments_cons, flat_map_app, assigned_paths_of_directory.
      cbn [Py.values map concat snd]. fold (Py.values unclassified).
      trans ((flat_map Py.values
                (Py.values (find_ctl_transform_pairs ctl_transforms)) ++ d1)
             ++ (flat_map assigned_paths (assignments root_directory unclassified)
                 ++ d2)); [solve_Permutation|].
      by apply Permutation_app.
    + unfold Py.items. intros [H1 H2]%Forall_cons.
      by rewrite (Hempty1 H1), (Hempty2 H2).
Qed.

Lemma assignments_shapes (root_directory : string)
  (unclassified : Py.dict (list string)) :
  Forall (fun a => one_or_two a.2.2) (assignments root_directory unclassified).
Proof.
  induction unclassified as [|[directory ctl_transforms] unclassified IH];
    [constructor|].
  rewrite assignments_cons. apply Forall_app. split; [|exact IH].
  apply Forall_fmap. exact (find_ctl_transform_pairs_shapes ctl_transforms).
Qed.

(** ** [classify_aces_ctl_transforms] followed by [unclassify_ctl_transforms] *)

(** The records of a classification are the records of the discovered
    files, the files that lost their slot to another file apart. *)
Lemma classify_contents (read_file : string -> option string)
  (abspath : string -> string) (paths_common_ancestor : list string -> string)
  (unclassified : Py.dict (list string)) (classified : taxonomy) :
  classify_aces_ctl_transforms read_file abspath paths_common_ancestor unclassified
  = Py.Return classified ->
  exists dropped,
    classified_paths classified ++ dropped
    ≡ₚ map abspath (concat (Py.values unclassified))
    /\ (collision_free (paths_common_ancestor (concat (Py.values unclassified)))
          unclassified ->
        dropped = []).
Proof.
  rewrite classify_as_assignments.
  set (root := paths_common_ancestor (concat (Py.values unclassified))).
  intros Hclassify.
  destruct (assignments_contents _ _ _ _ _ Hclassify) as (d1 & Hperm1 & Hempty1).
  destruct (assignments_paths root unclassified) as (d2 & Hperm2 & Hempty2).
  exists (d1 ++ map abspath d2). split.
  - rewrite <- Hperm2, map_app.
    trans ((classified_paths classified ++ d1) ++ map abspath d2);
      [solve_Permutation|].
    by rewrite Hperm1.
  - intros [Hfiles Hslots]. rewrite (Hempty2 Hfiles).
    rewrite Hempty1; [done|done| |apply assignments_shapes].
    apply Forall_forall. by intros [[f g] [b pairs]] _.
Qed.

Lemma for_each_returns {A S : Type} (body : S -> A -> Py.result S) (xs : list A) :
  (forall acc x, x ∈ xs -> exists acc', body acc x = Py.Return acc') ->
  forall acc, exists acc', Py.for_each body xs acc = Py.Return acc'.
Proof.
  induction xs as [|x xs IH]; intros Hbody acc; cbn [Py.for_each]; [eauto|].
  destruct (Hbody acc x) as (acc1 & ->); [left|].
  apply IH. intros acc' x' Hx'. apply Hbody. by right.
Qed.

(** The classification returns when every discovered file can be read
    and parsed. *)
Lemma classify_returns (read_file : string -> option string)
  (abspath : string -> string) (paths_common_ancestor : list string -> string)
  (unclassified : Py.dict (list string)) :
  (forall path family genus,
     path ∈ concat (Py.values unclassified) ->
     exists t, CTLTransform.__init__ read_file abspath path family genus
               = Py.Return t) ->
  exists classified,
    classify_aces_ctl_transforms read_file abspath paths_common_ancestor
      unclassified = Py.Return classified.
Proof.
  intros Hfiles. rewrite classify_as_assignments.
  set (root := paths_common_ancestor (concat (Py.values unclassified))).
  destruct (assignments_paths root unclassified) as (dropped & Hperm & _).
  pose proof (assignments_shapes root unclassified) as Hshapes.
  rewrite Forall_forall in Hshapes.
  apply for_each_returns. intros acc [[family genus] [basename pairs]] Hin.
  assert (forall path, path ∈ Py.values pairs ->
            exists t, CTLTransform.__init__ read_file abspath path family genus
                      = Py.Return t) as Hinit.
  { intros path Hpath. apply Hfiles. rewrite <- Hperm.
    apply elem_of_app. left. apply list_elem_of_In, in_flat_map.
    exists (family, genus, (basename, pairs)).
    split; by apply list_elem_of_In. }
  unfold assign, classify_pairs. cbn [fst snd].
  pose proof (Hshapes _ Hin) as Hshape. cbn [fst snd] in Hshape.
  destruct Hshape as (p & q & [-> | [-> | [-> | ->]]]);
    cbn [Py.values map snd] in Hinit |- *.
  - destruct (Hinit p) as (t & ->); [left|]. eauto.
  - destruct (Hinit p) as (t & ->); [left|]. eauto.
  - change (Py.getitem _ "forward_transform") with (Py.Return (A:=string) p).
    change (Py.getitem _ "inverse_transform") with (Py.Return (A:=string) q).
    rewrite bind_return.
    destruct (Hinit p) as (tf & ->); [left|]. rewrite !bind_return.
    destruct (Hinit q) as (ti & ->); [right; left|]. eauto.
  - change (Py.getitem _ "forward_transform") with (Py.Return (A:=string) q).
    change (Py.getitem _ "inverse_transform") with (Py.Return (A:=string) p).
    rewrite bind_return.
    destruct (Hinit q) as (tf & ->); [right; left|]. rewrite !bind_return.
    destruct (Hinit p) as (ti & ->); [left|]. eauto.
Qed.

(** C2, as stated, fails on two files that normalize to the same slot:
    of three discovered files, the classification holds two. *)
Lemma colliding_files_share_a_slot :
  discovered_count (discover_aces_ctl_transforms walk_with_collision) = 3
  /\ match classify_aces_ctl_transforms sample_read_file id paths_common_ancestor
             (discover_aces_ctl_transforms walk_with_collision) with
     | Py.Return classified =>
         classified_paths classified
         = ["/aces/transforms/ctl/aces-look/Look.Academy.Foo.CTL";
            "/aces/transforms/ctl/aces-core/Lib.Academy.Bar.ctl"]
     | Py.Raise _ => False
     end.
Proof. split; vm_compute; reflexivity. Qed.

(** C2, amended.  When the classification of the discovered files
    returns, every record of its flattening is the record of a discovered
    file, each file standing for one record at most, so that the
    flattening is at most as long as the discovery; when no two files
    collide on a taxonomy slot, the records are those of all the
    discovered files and the two lengths are equal, a pair counting for
    two. *)
Theorem classify_then_unclassify (read_file : string -> option string)
  (abspath : string -> string) (paths_common_ancestor : list string -> string)
  (unclassified : Py.dict (list string)) (classified : taxonomy) :
  classify_aces_ctl_transforms read_file abspath paths_common_ancestor unclassified
  = Py.Return classified ->
  classified_paths classified ⊆+ map abspath (concat (Py.values unclassified))
  /\ length (unclassify_ctl_transforms classified) <= discovered_count unclassified
  /\ (collision_free (paths_common_ancestor (concat (Py.values unclassified)))
        unclassified ->
      classified_paths classified ≡ₚ map abspath (concat (Py.values unclassified))
      /\ length (unclassify_ctl_transforms classified)
         = discovered_count unclassified).
Proof.
  intros Hclassify.
  destruct (classify_contents _ _ _ _ _ Hclassify) as (dropped & Hperm & Hempty).
  assert (length (unclassify_ctl_transforms classified)
          = length (classified_paths classified)) as Hlen.
  { unfold classified_paths. by rewrite length_map. }
  assert (length (map abspath (concat (Py.values unclassified)))
          = discovered_count unclassified) as Hcount.
  { unfold discovered_count. by rewrite length_map. }
  assert (classified_paths classified
          ⊆+ map abspath (concat (Py.values unclassified))) as Hsub.
  { rewrite <- Hperm. by apply submseteq_inserts_r. }
  split; [exact Hsub|]. split.
  - rewrite Hlen, <- Hcount. by apply submseteq_length.
  - intros Hfree. rewrite (Hempty Hfree), app_nil_r in Hperm.
    split; [exact Hperm|]. rewrite Hlen, <- Hcount. by apply Permutation_length.
Qed.

Lemma classify_then_unclassify_witness :
  let unclassified := discover_aces_ctl_transforms walk_with_pair in
  collision_free (paths_common_ancestor (concat (Py.values unclassified)))
    unclassified
  /\ match classify_aces_ctl_transforms sample_read_file id paths_common_ancestor
             unclassified with
     | Py.Return classified =>
         classified_paths classified ⊆+ map id (concat (Py.values unclassified))
         /\ length (unclassify_ctl_transforms classified)
            <= discovered_count unclassified
         /\ classified_paths classified
            ≡ₚ map id (concat (Py.values unclassified))
         /\ length (unclassify_ctl_transforms classified) = 3
     | Py.Raise _ => False
     end.
Proof.
  cbv zeta.
  assert (collision_free
            (paths_common_ancestor
               (concat (Py.values (discover_aces_ctl_transforms walk_with_pair))))
            (discover_aces_ctl_transforms walk_with_pair)) as Hfree.
  { apply (bool_decide_unpack _). vm_compute. exact I. }
  split; [exact Hfree|].
  destruct (classify_aces_ctl_transforms sample_read_file id paths_common_ancestor
              (discover_aces_ctl_transforms walk_with_pair))
    as [classified|e] eqn:Hclassify.
  - destruct (classify_then_unclassify _ _ _ _ _ Hclassify) as (Hsub & Hle & Heq).
    destruct (Heq Hfree) as [Hperm Hlen].
    split; [exact Hsub|]. split; [exact Hle|]. split; [exact Hperm|].
    rewrite Hlen. vm_compute. reflexivity.
  - vm_compute in Hclassify. discriminate Hclassify.
Defined.

(** * Further properties *)

(** ** [find_ctl_transform_pairs] *)

(** X1.  Every basename of the result holds one path or two, under the
    keys [forward_transform] and [inverse_transform]: the two cases that
    [classify_aces_ctl_transforms] distinguishes by length are the only
    ones. *)
Theorem pairs_hold_one_or_two_paths (ctl_transforms : list string) :
  Forall (fun item : string * Py.dict string =>
            one_or_two item.2
            /\ (length (Py.values item.2) = 1 \/ length (Py.values item.2) = 2))
         (find_ctl_transform_pairs ctl_transforms).
Proof.
  eapply Forall_impl; [exact (find_ctl_transform_pairs_shapes ctl_transforms)|].
  intros [basename pairs] Hshape. split; [exact Hshape|].
  by apply one_or_two_values.
Qed.

(** X2.  No path is filed twice and none is invented: the paths that the
    result holds are, with their multiplicities, among the given ones. *)
Theorem pairs_hold_given_paths_once (ctl_transforms : list string) :
  flat_map Py.values (Py.values (find_ctl_transform_pairs ctl_transforms))
  ⊆+ ctl_transforms.
Proof.
  destruct (find_ctl_transform_pairs_contents ctl_transforms)
    as (dropped & Hperm & _).
  trans (flat_map Py.values
           (Py.values (find_ctl_transform_pairs ctl_transforms)) ++ dropped).
  - by apply submseteq_inserts_r.
  - by rewrite Hperm.
Qed.

(** X3.  When no two paths normalize to the same basename and direction,
    no path is lost: the result holds exactly the given paths. *)
Theorem pairs_hold_all_distinct_paths (ctl_transforms : list string) :
  NoDup (map pair_key ctl_transforms) ->
  flat_map Py.values (Py.values (find_ctl_transform_pairs ctl_transforms))
  ≡ₚ ctl_transforms.
Proof.
  intros Hnodup.
  destruct (find_ctl_transform_pairs_contents ctl_transforms)
    as (dropped & Hperm & Hempty).
  by rewrite (Hempty Hnodup), app_nil_r in Hperm.
Qed.

Lemma pairs_hold_all_distinct_paths_witness :
  NoDup (map pair_key
           ["/ctl/csc/CSC.Academy.ACES_to_ACEScc.ctl";
            "/ctl/csc/CSC.Academy.ACEScc_to_ACES.ctl";
            "/ctl/csc/CSC.Academy.ACES_to_ACEScct.ctl"])
  /\ flat_map Py.values
       (Py.values
          (find_ctl_transform_pairs
             ["/ctl/csc/CSC.Academy.ACES_to_ACEScc.ctl";
              "/ctl/csc/CSC.Academy.ACEScc_to_ACES.ctl";
              "/ctl/csc/CSC.Academy.ACES_to_ACEScct.ctl"]))
     ≡ₚ ["/ctl/csc/CSC.Academy.ACES_to_ACEScc.ctl";
         "/ctl/csc/CSC.Academy.ACEScc_to_ACES.ctl";
         "/ctl/csc/CSC.Academy.ACES_to_ACEScct.ctl"].
Proof.
  assert (NoDup (map pair_key
                   ["/ctl/csc/CSC.Academy.ACES_to_ACEScc.ctl";
                    "/ctl/csc/CSC.Academy.ACEScc_to_ACES.ctl";
                    "/ctl/csc/CSC.Academy.ACES_to_ACEScct.ctl"])) as Hnodup.
  { apply (bool_decide_unpack _). vm_compute. exact I. }
  split; [exact Hnodup|].
  exact (pairs_hold_all_distinct_paths _ Hnodup).
Defined.

(** ** [filter_ctl_transforms] *)

Lemma forallb_Permutation {A : Type} (f : A -> bool) (l l' : list A) :
  l ≡ₚ l' -> forallb f l = forallb f l'.
Proof.
  induction 1 as [|x l l' _ IH|x y l|l l' l'' _ IH1 _ IH2]; cbn [forallb].
  - reflexivity.
  - by rewrite IH.
  - by destruct (f x), (f y).
  - by rewrite IH1.
Qed.

Lemma filter_filter_same {A : Type} (f : A -> bool) (l : list A) :
  List.filter f (List.filter f l) = List.filter f l.
Proof.
  induction l as [|x l IH]; [reflexivity|].
  cbn [List.filter]. destruct (f x) eqn:Hf; [|exact IH].
  cbn [List.filter]. by rewrite Hf, IH.
Qed.

(** X4.  The running product [included] of what the filterers return is
    a conjunction: the result holds, in order, the transforms of the
    flattened input that every filterer accepts. *)
Theorem filter_ctl_transforms_keeps_accepted
  (ctl_transforms : taxonomy + list CTLTransform.t)
  (filterers : list (CTLTransform.t -> bool)) :
  filter_ctl_transforms ctl_transforms (Some filterers)
  = List.filter
      (fun ctl_transform => forallb (fun filterer => filterer ctl_transform) filterers)
      match ctl_transforms with
      | inl classified => unclassify_ctl_transforms classified
      | inr flat => flat
      end.
Proof.
  unfold filter_ctl_transforms, optional. apply List.filter_ext.
  intros t. apply included_forallb.
Qed.

(** X5.  The order of the filterers does not matter. *)
Theorem filter_ctl_transforms_filterers_order
  (ctl_transforms : taxonomy + list CTLTransform.t)
  (filterers filterers' : list (CTLTransform.t -> bool)) :
  filterers ≡ₚ filterers' ->
  filter_ctl_transforms ctl_transforms (Some filterers)
  = filter_ctl_transforms ctl_transforms (Some filterers').
Proof.
  intros Hperm. unfold filter_ctl_transforms, optional. apply List.filter_ext.
  intros t. rewrite !included_forallb. by apply forallb_Permutation.
Qed.

Lemma filter_ctl_transforms_filterers_order_witness :
  let csc (t : CTLTransform.t) := String.eqb t.(CTLTransform.family) "csc" in
  [_exclusion_filterer_ARRIIDT; csc] ≡ₚ [csc; _exclusion_filterer_ARRIIDT]
  /\ forall ctl_transforms : list CTLTransform.t,
       filter_ctl_transforms (inr ctl_transforms)
         (Some [_exclusion_filterer_ARRIIDT; csc])
       = filter_ctl_transforms (inr ctl_transforms)
           (Some [csc; _exclusion_filterer_ARRIIDT]).
Proof.
  cbv zeta. split; [apply perm_swap|].
  intros ctl_transforms.
  apply filter_ctl_transforms_filterers_order. apply perm_swap.
Defined.

(** X6.  Filtering what was filtered, with the same filterers, changes
    nothing. *)
Theorem filter_ctl_transforms_twice
  (ctl_transforms : taxonomy + list CTLTransform.t)
  (filterers : list (CTLTransform.t -> bool)) :
  filter_ctl_transforms
    (inr (filter_ctl_transforms ctl_transforms (Some filterers)))
    (Some filterers)
  = filter_ctl_transforms ctl_transforms (Some filterers).
Proof. unfold filter_ctl_transforms, optional. apply filter_filter_same. Qed.

(** ** [generate_amf_components] and [filter_amf_components] *)

Lemma generated_lookup (json_data : AMF.transforms_data) (include : bool)
  (key : string) (transform_ids : list string) :
  AMF.generate_amf_components json_data include !! key = Some transform_ids ->
  exists raw,
    fold_left (AMF.register include) (concat (Py.values json_data)) ∅ !! key
    = Some raw
    /\ transform_ids = AMF.sorted_ids raw.
Proof.
  unfold AMF.generate_amf_components. rewrite lookup_fmap.
  destruct (filter _ _ !! key) as [raw|] eqn:Hraw; [|discriminate].
  intros [= <-]. apply map_lookup_filter_Some in Hraw as [Hraw _]. eauto.
Qed.

Lemma sorted_ids_sorted (transform_ids : list string) :
  Sorted String.le (AMF.sorted_ids transform_ids)
  /\ NoDup (AMF.sorted_ids transform_ids)
  /\ "" ∉ AMF.sorted_ids transform_ids.
Proof.
  split; [|split].
  - unfold AMF.sorted_ids. apply (Sorted_merge_sort String.le).
  - unfold AMF.sorted_ids. rewrite merge_sort_Permutation. apply NoDup_elements.
  - rewrite elem_of_sorted_ids. by intros [? _].
Qed.

Lemma generated_list_sorted (json_data : AMF.transforms_data)
  (include : bool) (key : string) (transform_ids : list string) :
  AMF.generate_amf_components json_data include !! key = Some transform_ids ->
  Sorted String.le transform_ids /\ NoDup transform_ids /\ "" ∉ transform_ids.
Proof.
  intros (raw & _ & ->)%generated_lookup. apply sorted_ids_sorted.
Qed.

(** X7.  Every list of the component table is sorted, holds no identifier
    twice and does not hold the empty string. *)
Theorem amf_components_are_sorted_sets (json_data : AMF.transforms_data)
  (include : bool) (key : string) (transform_ids : list string) :
  AMF.generate_amf_components json_data include !! key = Some transform_ids ->
  Sorted String.le transform_ids /\ NoDup transform_ids /\ "" ∉ transform_ids.
Proof. apply generated_list_sorted. Qed.

Lemma amf_components_are_sorted_sets_witness :
  let graph :=
    AMF.generate_amf_components
      [("v2", [AMF.mk_transform "urn:b" (Some "urn:a") ["urn:c"; "urn:a"; ""]])]
      true in
  graph !! "urn:b" = Some ["urn:a"; "urn:b"; "urn:c"]
  /\ Sorted String.le ["urn:a"; "urn:b"; "urn:c"]
  /\ NoDup ["urn:a"; "urn:b"; "urn:c"]
  /\ "" ∉ ["urn:a"; "urn:b"; "urn:c"].
Proof.
  cbv zeta.
  assert (AMF.generate_amf_components
            [("v2", [AMF.mk_transform "urn:b" (Some "urn:a") ["urn:c"; "urn:a"; ""]])]
            true !! "urn:b" = Some ["urn:a"; "urn:b"; "urn:c"]) as Hlookup.
  { vm_compute. reflexivity. }
  split; [exact Hlookup|].
  exact (amf_components_are_sorted_sets _ _ _ _ Hlookup).
Defined.

Lemma is_Some_extend_iff (m : gmap string (list string)) (k j : string)
  (vs : list string) :
  is_Some (AMF.extend m k vs !! j) <-> j = k \/ is_Some (m !! j).
Proof.
  unfold AMF.extend. rewrite lookup_insert.
  destruct (decide (k = j)) as [->|Hne].
  - split; [by left|eauto].
  - split; [by right|]. intros [->|H]; [done|exact H].
Qed.

Lemma is_Some_register (include : bool) (m : gmap string (list string))
  (t : AMF.transform) (a : string) :
  is_Some (AMF.register include m t !! a)
  <-> is_Some (m !! a)
      \/ a = t.(AMF.transformId) \/ t.(AMF.inverseTransformId) = Some a.
Proof.
  unfold AMF.register.
  change AMF.append with (fun m k v => AMF.extend m k [v]). cbv beta.
  destruct t as [tid [inv|] previous]; cbn [AMF.transformId AMF.inverseTransformId
    AMF.previousEquivalentTransformIds]; destruct include;
    rewrite ?is_Some_extend_iff; split; intuition (congruence || auto).
Qed.

Lemma is_Some_fold_register (include : bool) (ts : list AMF.transform)
  (m : gmap string (list string)) (a : string) :
  is_Some (fold_left (AMF.register include) ts m !! a)
  <-> is_Some (m !! a)
      \/ exists t, t ∈ ts
           /\ (a = t.(AMF.transformId) \/ t.(AMF.inverseTransformId) = Some a).
Proof.
  revert m. induction ts as [|t ts IH]; intros m; cbn [fold_left].
  - split; [auto|]. intros [H|(t & Ht & _)]; [done|]. by apply elem_of_nil in Ht.
  - rewrite IH, is_Some_register. split.
    + intros [[H|H]|(t' & Ht' & H)]; [by left|right..].
      * exists t. split; [left|done].
      * exists t'. split; [by right|done].
    + intros [H|(t' & Ht' & H)]; [by left; left|].
      apply elem_of_cons in Ht' as [->|Ht']; [by left; right|].
      right. by exists t'.
Qed.

(** X8.  The keys of the component table are the transform identifiers
    and the inverse transform identifiers of the JSON data, and no others:
    a previous-equivalent identifier is a key only if it is one of these. *)
Theorem amf_components_keys (json_data : AMF.transforms_data) (include : bool)
  (key : string) :
  is_Some (AMF.generate_amf_components json_data include !! key)
  <-> exists t, t ∈ concat (Py.values json_data)
        /\ (key = t.(AMF.transformId) \/ t.(AMF.inverseTransformId) = Some key).
Proof.
  assert (is_Some (AMF.generate_amf_components json_data include !! key)
          <-> is_Some (fold_left (AMF.register include)
                         (concat (Py.values json_data)) ∅ !! key)) as ->.
  { unfold AMF.generate_amf_components. rewrite lookup_fmap, fmap_is_Some.
    split.
    - intros [raw [Hraw _]%map_lookup_filter_Some]. eauto.
    - intros [raw Hraw]. exists raw. apply map_lookup_filter_Some.
      split; [done|]. cbn. intros ->.
      assert (self_listed
                (fold_left (AMF.register include) (concat (Py.values json_data)) ∅))
        as Hself.
      { apply self_listed_fold. intros a l. by rewrite lookup_empty. }
      by apply Hself, elem_of_nil in Hraw. }
  rewrite is_Some_fold_register, lookup_empty. split; [|auto].
  intros [[? [=]]|H]; exact H.
Qed.

(** X9.  Every key other than the empty string is in its own list. *)
Theorem amf_components_list_their_key (json_data : AMF.transforms_data)
  (include : bool) (key : string) (transform_ids : list string) :
  AMF.generate_amf_components json_data include !! key = Some transform_ids ->
  key <> "" ->
  key ∈ transform_ids.
Proof. apply key_is_in_its_own_components. Qed.

Lemma amf_components_list_their_key_witness :
  AMF.generate_amf_components
    [("v2", [AMF.mk_transform "urn:b" (Some "urn:a") ["urn:c"]])] false
    !! "urn:a" = Some ["urn:a"; "urn:b"]
  /\ "urn:a" <> ""
  /\ "urn:a" ∈ ["urn:a"; "urn:b"].
Proof.
  assert (AMF.generate_amf_components
            [("v2", [AMF.mk_transform "urn:b" (Some "urn:a") ["urn:c"]])] false
            !! "urn:a" = Some ["urn:a"; "urn:b"]) as Hlookup.
  { vm_compute. reflexivity. }
  split; [exact Hlookup|]. split; [discriminate|].
  apply (amf_components_list_their_key _ _ _ _ Hlookup). discriminate.
Defined.

Lemma related_default (graph : gmap string (list string)) (a b : string) :
  related graph a b <-> b ∈ default [] (graph !! a).
Proof.
  unfold related. destruct (graph !! a) as [ids|]; cbn [default].
  - split; [by intros (? & [= <-] & ?)|eauto].
  - split; [by intros (? & [=] & _)|]. by intros ?%elem_of_nil.
Qed.

Lemma linked_include (t : AMF.transform) (a b : string) :
  linked false t a b -> linked true t a b.
Proof.
  unfold linked. cbv zeta. intros [H|[H|(inv & Hinv & H)]].
  - by left.
  - by destruct H as [[=] _].
  - right. right. exists inv. split; [done|].
    destruct H as [H|[H|[H|H]]]; [tauto..|by destruct H as [[=] _]].
Qed.

(** X10.  Including the previous identifiers only adds to the lists: what
    is listed under a key without them is listed under it with them. *)
Theorem amf_components_previous_ids_add (json_data : AMF.transforms_data)
  (key : string) :
  default [] (AMF.generate_amf_components json_data false !! key)
  ⊆ default [] (AMF.generate_amf_components json_data true !! key).
Proof.
  intros b. rewrite <- !related_default, !related_generate.
  intros [Hb (t & Ht & Hl)]. split; [done|]. exists t.
  split; [done|]. by apply linked_include.
Qed.

(** X11.  An identifier is listed under a key exactly when it is not
    empty and a transform of the JSON data links it to the key: the key
    itself and its inverse for a transform identifier, the key itself and
    the transform for an inverse identifier and, when they are included,
    the previous-equivalent identifiers for both. *)
Theorem amf_components_membership (json_data : AMF.transforms_data)
  (include : bool) (key transform_id : string) :
  transform_id ∈ default [] (AMF.generate_amf_components json_data include !! key)
  <-> transform_id <> ""
      /\ exists t, t ∈ concat (Py.values json_data)
           /\ linked include t key transform_id.
Proof. rewrite <- related_default. apply related_generate. Qed.

Lemma merge_sort_sorted (l : list string) :
  Sorted String.le l -> merge_sort String.le l = l.
Proof.
  intros Hsorted. apply (Sorted_unique String.le); [|done|].
  - apply (Sorted_merge_sort String.le).
  - apply merge_sort_Permutation.
Qed.

(** X12.  Without filterers (left out or empty), filtering the generated
    table for an identifier returns the list of the identifier as it is,
    and the empty list for an identifier that is not a key; nothing is
    raised. *)
Theorem filter_amf_components_of_generated
  (filter_any filter_all :
     list (Py.dict string) -> list (Py.dict string -> bool) -> list (Py.dict string))
  (json_data : AMF.transforms_data) (include : bool) (aces_transform_id : string)
  (filter_any_filterers filter_all_filterers
     : option (list (Py.dict string -> bool))) :
  truthy filter_any_filterers = false ->
  truthy filter_all_filterers = false ->
  filter_amf_components filter_any filter_all
    (AMF.generate_amf_components json_data include) aces_transform_id
    filter_any_filterers filter_all_filterers
  = Py.Return
      (default [] (AMF.generate_amf_components json_data include
                   !! aces_transform_id)).
Proof.
  intros Hany Hall. unfold filter_amf_components. rewrite Hany, Hall.
  cbn [orb]. unfold mret, result_ret. rewrite bind_return. f_equal.
  destruct (AMF.generate_amf_components json_data include !! aces_transform_id)
    as [ids|] eqn:Hlookup; cbn [default]; [|reflexivity].
  apply merge_sort_sorted.
  by destruct (generated_list_sorted _ _ _ _ Hlookup).
Qed.

Lemma filter_amf_components_of_generated_witness :
  let json_data :=
    [("v2", [AMF.mk_transform "urn:b" (Some "urn:a") ["urn:c"]])] in
  truthy (None : option (list (Py.dict string -> bool))) = false
  /\ truthy (Some [] : option (list (Py.dict string -> bool))) = false
  /\ filter_amf_components (fun dicts _ => dicts) (fun dicts _ => dicts)
       (AMF.generate_amf_components json_data true) "urn:b" None (Some [])
     = Py.Return ["urn:a"; "urn:b"; "urn:c"]
  /\ filter_amf_components (fun dicts _ => dicts) (fun dicts _ => dicts)
       (AMF.generate_amf_components json_data true) "urn:c" None (Some [])
     = Py.Return [].
Proof.
  cbv zeta. split; [reflexivity|]. split; [reflexivity|]. split.
  - rewrite (filter_amf_components_of_generated _ _ _ _ _ None (Some []))
      by reflexivity.
    vm_compute. reflexivity.
  - rewrite (filter_amf_components_of_generated _ _ _ _ _ None (Some []))
      by reflexivity.
    vm_compute. reflexivity.
Defined.

(** ** [discover_aces_ctl_transforms] *)

(** The body of the loop over the file names of a directory. *)
Lemma discover_file (directory filename : string)
  (ctl_transforms : Py.dict (list string)) (directory' path : string) :
  path ∈ discovered_under
           (if negb (Py.endswith (Py.lower filename) EXTENSION_CTL)
            then ctl_transforms
            else Py.set ctl_transforms directory
                   (Py.get_default [] ctl_transforms directory
                    ++ [Py.path_join directory filename]))
           directory'
  <-> path ∈ discovered_under ctl_transforms directory'
      \/ (directory' = directory
          /\ Py.endswith (Py.lower filename) EXTENSION_CTL = true
          /\ path = Py.path_join directory filename).
Proof.
  unfold discovered_under.
  destruct (Py.endswith (Py.lower filename) EXTENSION_CTL); cbn [negb].
  - rewrite get_default_set.
    destruct (String.eqb_spec directory' directory) as [->|Hne].
    + rewrite elem_of_app, list_elem_of_singleton. intuition.
    + intuition.
  - intuition discriminate.
Qed.

Lemma discover_files (directory : string) (filenames : list string)
  (ctl_transforms : Py.dict (list string)) (directory' path : string) :
  path ∈ discovered_under
           (fold_left
              (fun ctl_transforms filename =>
                 if negb (Py.endswith (Py.lower filename) EXTENSION_CTL)
                 then ctl_transforms
                 else
                   let ctl_transform := Py.path_join directory filename in
                   Py.set ctl_transforms directory
                     (Py.get_default [] ctl_transforms directory ++ [ctl_transform]))
              filenames ctl_transforms)
           directory'
  <-> path ∈ discovered_under ctl_transforms directory'
      \/ (directory' = directory
          /\ exists filename,
               filename ∈ filenames
               /\ Py.endswith (Py.lower filename) EXTENSION_CTL = true
               /\ path = Py.path_join directory filename).
Proof.
  revert ctl_transforms.
  induction filenames as [|filename filenames IH]; intros ctl_transforms;
    cbn [fold_left].
  - split; [auto|]. intros [H|(_ & f & Hf & _)]; [done|].
    by apply elem_of_nil in Hf.
  - rewrite IH. cbv zeta. rewrite discover_file. split.
    + intros [[H|(-> & Hm & ->)]|(-> & f & Hf & Hm & ->)]; [by left|right..].
      * split; [done|]. exists filename. split; [left|done].
      * split; [done|]. exists f. split; [by right|done].
    + intros [H|(-> & f & Hf & Hm & ->)]; [by left; left|].
      apply elem_of_cons in Hf as [->|Hf]; [left; right; done|].
      right. split; [done|]. by exists f.
Qed.

Lemma discover_directory (directory : string) (filenames : list string)
  (ctl_transforms : Py.dict (list string)) (directory' path : string) :
  path ∈ discovered_under
           (match filenames with
            | [] => ctl_transforms
            | _ =>
                fold_left
                  (fun ctl_transforms filename =>
                     if negb (Py.endswith (Py.lower filename) EXTENSION_CTL)
                     then ctl_transforms
                     else
                       let ctl_transform := Py.path_join directory filename in
                       Py.set ctl_transforms directory
                         (Py.get_default [] ctl_transforms directory
                          ++ [ctl_transform]))
                  filenames ctl_transforms
            end)
           directory'
  <-> path ∈ discovered_under ctl_transforms directory'
      \/ (directory' = directory
          /\ exists filename,
               filename ∈ filenames
               /\ Py.endswith (Py.lower filename) EXTENSION_CTL = true
               /\ path = Py.path_join directory filename).
Proof.
  destruct filenames as [|filename filenames]; [|apply discover_files].
  split; [auto|]. intros [H|(_ & f & Hf & _)]; [done|].
  by apply elem_of_nil in Hf.
Qed.

Lemma discover_walk (walk : list (string * list string))
  (ctl_transforms : Py.dict (list string)) (directory' path : string) :
  path ∈ discovered_under
           (fold_left
              (fun ctl_transforms '(directory, filenames) =>
                 match filenames with
                 | [] => ctl_transforms
                 | _ =>
                     fold_left
                       (fun ctl_transforms filename =>
                          if negb (Py.endswith (Py.lower filename) EXTENSION_CTL)
                          then ctl_transforms
                          else
                            let ctl_transform := Py.path_join directory filename in
                            Py.set ctl_transforms directory
                              (Py.get_default [] ctl_transforms directory
                               ++ [ctl_transform]))
                       filenames ctl_transforms
                 end)
              walk ctl_transforms)
           directory'
  <-> path ∈ discovered_under ctl_transforms directory'
      \/ exists filenames filename,
           (directory', filenames) ∈ walk
           /\ filename ∈ filenames
           /\ Py.endswith (Py.lower filename) EXTENSION_CTL = true
           /\ path = Py.path_join directory' filename.
Proof.
  revert ctl_transforms.
  induction walk as [|[directory filenames] walk IH]; intros ctl_transforms;
    cbn [fold_left].
  - split; [auto|]. intros [H|(fs & f & Hin & _)]; [done|].
    by apply elem_of_nil in Hin.
  - rewrite IH, discover_directory. split.
    + intros [[H|(-> & f & Hf & Hm & ->)]|(fs & f & Hin & Hf & Hm & ->)];
        [by left|right..].
      * exists filenames, f. split; [left|done].
      * exists fs, f. split; [by right|done].
    + intros [H|(fs & f & Hin & Hf & Hm & ->)]; [by left; left|].
      apply elem_of_cons in Hin as [[= -> ->]|Hin].
      * left. right. split; [done|]. by exists f.
      * right. by exists fs, f.
Qed.

(** X13.  A path is discovered under a directory exactly when it is the
    join of the directory and of one of its file names whose lower-case
    form ends with [.ctl]: files with another extension are left out, and
    the case of the extension does not matter. *)
Theorem discovered_paths (walk : list (string * list string))
  (directory path : string) :
  path ∈ discovered_under (discover_aces_ctl_transforms walk) directory
  <-> exists filenames filename,
        (directory, filenames) ∈ walk
        /\ filename ∈ filenames
        /\ Py.endswith (Py.lower filename) EXTENSION_CTL = true
        /\ path = Py.path_join directory filename.
Proof.
  unfold discover_aces_ctl_transforms. rewrite discover_walk.
  split; [|auto]. intros [H|H]; [|exact H]. by apply elem_of_nil in H.
Qed.

Lemma discover_no_empty_list (walk : list (string * list string))
  (ctl_transforms : Py.dict (list string)) :
  Forall (fun item : string * list string => item.2 <> []) ctl_transforms ->
  Forall (fun item : string * list string => item.2 <> [])
    (fold_left
       (fun ctl_transforms '(directory, filenames) =>
          match filenames with
          | [] => ctl_transforms
          | _ =>
              fold_left
                (fun ctl_transforms filename =>
                   if negb (Py.endswith (Py.lower filename) EXTENSION_CTL)
                   then ctl_transforms
                   else
                     let ctl_transform := Py.path_join directory filename in
                     Py.set ctl_transforms directory
                       (Py.get_default [] ctl_transforms directory
                        ++ [ctl_transform]))
                filenames ctl_transforms
          end)
       walk ctl_transforms).
Proof.
  revert ctl_transforms.
  induction walk as [|[directory filenames] walk IH]; intros ctl_transforms Hd;
    cbn [fold_left]; [exact Hd|].
  apply IH. destruct filenames as [|filename filenames]; [exact Hd|].
  generalize (filename :: filenames) as fs. clear filename filenames.
  intros fs. revert ctl_transforms Hd.
  induction fs as [|f fs IHfs]; intros ctl_transforms Hd; cbn [fold_left];
    [exact Hd|].
  apply IHfs. destruct (negb _); [exact Hd|]. cbv zeta.
  apply (Forall_set (fun l : list string => l <> [])); [exact Hd|].
  by destruct (Py.get_default [] ctl_transforms directory).
Qed.

(** X14.  A directory without any transform file is not a key of the
    discovery: no key holds an empty list. *)
Theorem discovered_directories_hold_files (walk : list (string * list string)) :
  Forall (fun item : string * list string => item.2 <> [])
         (Py.items (discover_aces_ctl_transforms walk)).
Proof. apply discover_no_empty_list. constructor. Qed.

(** ** [ctl_transform_relative_path] *)

(** X15.  For a text in which the root directory followed by the
    separator does not occur, the path made of the root directory, the
    separator and the text is brought back to the text, and the text
    itself, a path that is not below the root directory, is left as it
    is. *)
Theorem relative_path_below_root (root_directory relative : string) :
  Py.contains relative (root_directory +:+ os_sep) = false ->
  ctl_transform_relative_path (root_directory +:+ os_sep +:+ relative)
    root_directory = relative
  /\ ctl_transform_relative_path relative root_directory = relative.
Proof.
  intros Hfree. unfold ctl_transform_relative_path. split.
  - rewrite <- append_assoc. apply replace_prefix; [|exact Hfree].
    unfold os_sep. by destruct root_directory.
  - by apply replace_absent.
Qed.

Lemma relative_path_below_root_witness :
  Py.contains "aces-core/lib/Lib.Academy.Tonescale.ctl"
    ("/aces/transforms/ctl" +:+ os_sep) = false
  /\ ctl_transform_relative_path
       ("/aces/transforms/ctl" +:+ os_sep
        +:+ "aces-core/lib/Lib.Academy.Tonescale.ctl")
       "/aces/transforms/ctl"
     = "aces-core/lib/Lib.Academy.Tonescale.ctl"
  /\ ctl_transform_relative_path "aces-core/lib/Lib.Academy.Tonescale.ctl"
       "/aces/transforms/ctl"
     = "aces-core/lib/Lib.Academy.Tonescale.ctl".
Proof.
  split; [vm_compute; reflexivity|].
  apply relative_path_below_root. vm_compute. reflexivity.
Defined.

(** ** [CTLTransform] *)

(** The construction in terms of the header loop. *)
Lemma init_as_parse_header (read_file : string -> option string)
  (abspath : string -> string) (path family genus : string) :
  CTLTransform.__init__ read_file abspath path family genus
  = match read_file (abspath path) with
    | None => Py.Raise (Py.OSError (abspath path))
    | Some content =>
        self ← CTLTransform.parse_header (stripped_lines content)
                 (CTLTransform.set_code
                    (unparsed_record (abspath path) family genus) content);
        mret (CTLTransform.set_description self
                (Py.strip self.(CTLTransform.description)))
    end.
Proof. reflexivity. Qed.

Lemma parse_header_keeps (lines : list string) (self t : CTLTransform.t) :
  CTLTransform.parse_header lines self = Py.Return t ->
  CTLTransform.path t = CTLTransform.path self
  /\ CTLTransform.code t = CTLTransform.code self
  /\ CTLTransform.family t = CTLTransform.family self
  /\ CTLTransform.genus t = CTLTransform.genus self
  /\ CTLTransform.siblings t = CTLTransform.siblings self.
Proof.
  revert self. induction lines as [|line lines IH]; intros self;
    cbn [CTLTransform.parse_header].
  - by intros [= <-].
  - destruct (re_search_tag "ACEStransformID" line) as [group|].
    { destruct (ACESTransformID.__init__ group) as [id|e];
        [rewrite bind_return|by rewrite bind_raise].
      intros H. exact (IH _ H). }
    destruct (re_search_tag "ACESuserName" line) as [group|].
    { intros H. exact (IH _ H). }
    destruct (Py.startswith line "//").
    + intros H. exact (IH _ H).
    + by intros [= <-].
Qed.

(** X16.  A record that is constructed holds the absolute path of its
    file, the content of the file as its code, the family and the genus
    it was given, and no sibling. *)
Theorem record_holds_what_it_was_given (read_file : string -> option string)
  (abspath : string -> string) (path family genus : string)
  (t : CTLTransform.t) :
  CTLTransform.__init__ read_file abspath path family genus = Py.Return t ->
  CTLTransform.path t = abspath path
  /\ read_file (abspath path) = Some (CTLTransform.code t)
  /\ CTLTransform.family t = family
  /\ CTLTransform.genus t = genus
  /\ CTLTransform.siblings t = [].
Proof.
  rewrite init_as_parse_header.
  destruct (read_file (abspath path)) as [content|]; [|discriminate].
  destruct (CTLTransform.parse_header _ _) as [self|e] eqn:Hparse;
    [rewrite bind_return|by rewrite bind_raise].
  intros [= <-]. cbn [CTLTransform.set_description CTLTransform.path
    CTLTransform.code CTLTransform.family CTLTransform.genus
    CTLTransform.siblings].
  destruct (parse_header_keeps _ _ _ Hparse) as (-> & -> & -> & -> & ->).
  done.
Qed.

Lemma record_holds_what_it_was_given_witness :
  match CTLTransform.__init__ sample_read_file id
          "/aces/transforms/ctl/aces-core/Lib.Academy.Bar.ctl" "lib" "undefined" with
  | Py.Return t =>
      CTLTransform.path t = "/aces/transforms/ctl/aces-core/Lib.Academy.Bar.ctl"
      /\ sample_read_file "/aces/transforms/ctl/aces-core/Lib.Academy.Bar.ctl"
         = Some (CTLTransform.code t)
      /\ CTLTransform.family t = "lib"
      /\ CTLTransform.genus t = "undefined"
      /\ CTLTransform.siblings t = []
  | Py.Raise _ => False
  end.
Proof.
  destruct (CTLTransform.__init__ sample_read_file id
              "/aces/transforms/ctl/aces-core/Lib.Academy.Bar.ctl" "lib" "undefined")
    as [t|e] eqn:Hinit.
  - exact (record_holds_what_it_was_given _ _ _ _ _ _ Hinit).
  - vm_compute in Hinit. discriminate Hinit.
Defined.

Lemma parse_header_without_identifier (lines : list string)
  (self : CTLTransform.t) :
  Forall (fun line => re_search_tag "ACEStransformID" line = None) lines ->
  exists t,
    CTLTransform.parse_header lines self = Py.Return t
    /\ CTLTransform.aces_transform_id t = CTLTransform.aces_transform_id self.
Proof.
  intros Hlines. revert self.
  induction Hlines as [|line lines Hline _ IH]; intros self;
    cbn [CTLTransform.parse_header]; [eauto|].
  rewrite Hline.
  destruct (re_search_tag "ACESuserName" line) as [group|];
    [exact (IH (CTLTransform.set_user_name self group))|].
  destruct (Py.startswith line "//"); [|eauto].
  exact (IH (CTLTransform.set_description self _)).
Qed.

(** X17.  A file that can be read and holds no identifier tag is not an
    error: the record is constructed and its identifier is the undefined
    one. *)
Theorem record_without_identifier_tag (read_file : string -> option string)
  (abspath : string -> string) (path family genus content : string) :
  read_file (abspath path) = Some content ->
  Forall (fun line => re_search_tag "ACEStransformID" line = None)
         (stripped_lines content) ->
  exists t,
    CTLTransform.__init__ read_file abspath path family genus = Py.Return t
    /\ CTLTransform.aces_transform_id t
       = ACESTransformID.blank VALUE_DEFAULT_UNDEFINED.
Proof.
  intros Hread Hlines. rewrite init_as_parse_header, Hread.
  destruct (parse_header_without_identifier _
              (CTLTransform.set_code
                 (unparsed_record (abspath path) family genus) content) Hlines)
    as (t & -> & Hid).
  rewrite bind_return. eexists. split; [reflexivity|].
  cbn [CTLTransform.set_description CTLTransform.aces_transform_id].
  by rewrite Hid.
Qed.

Lemma record_without_identifier_tag_witness :
  exists t,
    CTLTransform.__init__ untagged_read_file id
      "/aces/transforms/ctl/aces-core/Lib.Academy.Utilities.ctl" "lib" "undefined"
    = Py.Return t
    /\ CTLTransform.aces_transform_id t
       = ACESTransformID.blank VALUE_DEFAULT_UNDEFINED.
Proof.
  eapply record_without_identifier_tag.
  - reflexivity.
  - vm_compute. repeat constructor.
Defined.

(** X18.  The header ends with the first line that is neither one of the
    two tags nor a comment: that line and what follows it are not read. *)
Theorem header_ends_with_first_code_line (before after : list string)
  (line : string) (self : CTLTransform.t) :
  ends_header line ->
  CTLTransform.parse_header (before ++ line :: after) self
  = CTLTransform.parse_header before self.
Proof.
  intros (Hid & Hname & Hcomment). revert self.
  induction before as [|l before IH]; intros self;
    cbn [app CTLTransform.parse_header].
  - by rewrite Hid, Hname, Hcomment.
  - destruct (re_search_tag "ACEStransformID" l) as [group|].
    { destruct (ACESTransformID.__init__ group) as [id|e];
        [rewrite !bind_return|reflexivity].
      apply IH. }
    destruct (re_search_tag "ACESuserName" l) as [group|]; [apply IH|].
    destruct (Py.startswith l "//"); [apply IH|reflexivity].
Qed.

Lemma header_ends_with_first_code_line_witness :
  ends_header "import Lib;"
  /\ CTLTransform.parse_header
       (["// <ACESuserName>Sample</ACESuserName>"]
        ++ "import Lib;"
           :: ["// <ACEStransformID>urn:ampas:aces:transformId:v2.0:Lib.Academy.Sample.a2.v1</ACEStransformID>"])
       (unparsed_record "/ctl/Lib.Academy.Sample.ctl" "lib" "undefined")
     = CTLTransform.parse_header ["// <ACESuserName>Sample</ACESuserName>"]
         (unparsed_record "/ctl/Lib.Academy.Sample.ctl" "lib" "undefined").
Proof.
  assert (ends_header "import Lib;") as Hends by (repeat split).
  split; [exact Hends|].
  exact (header_ends_with_first_code_line _ _ _ _ Hends).
Defined.

Lemma parse_header_raises (before after : list string) (line group : string)
  (self : CTLTransform.t) :
  Forall plain_header_line before ->
  re_search_tag "ACEStransformID" line = Some group ->
  raises (ACESTransformID.__init__ group) ->
  raises (CTLTransform.parse_header (before ++ line :: after) self).
Proof.
  intros Hbefore Hline Hgroup. revert self.
  induction Hbefore as [|l before (Hid & Hplain) _ IH]; intros self;
    cbn [app CTLTransform.parse_header].
  - rewrite Hline. by destruct (ACESTransformID.__init__ group).
  - rewrite Hid. destruct Hplain as [[name ->]| ->].
    + apply IH.
    + destruct (re_search_tag "ACESuserName" l); apply IH.
Qed.

(** X19.  An identifier tag of the header whose identifier is malformed
    is a failure of the construction of the record, not an undefined
    identifier. *)
Theorem malformed_identifier_tag_raises (read_file : string -> option string)
  (abspath : string -> string) (path family genus content : string)
  (before after : list string) (line group : string) :
  read_file (abspath path) = Some content ->
  stripped_lines content = before ++ line :: after ->
  Forall plain_header_line before ->
  re_search_tag "ACEStransformID" line = Some group ->
  raises (ACESTransformID.__init__ group) ->
  raises (CTLTransform.__init__ read_file abspath path family genus).
Proof.
  intros Hread Hlines Hbefore Hline Hgroup.
  rewrite init_as_parse_header, Hread, Hlines.
  pose proof (parse_header_raises before after line group
                (CTLTransform.set_code
                   (unparsed_record (abspath path) family genus) content)
                Hbefore Hline Hgroup) as Hraises.
  by destruct (CTLTransform.parse_header _ _).
Qed.

Lemma malformed_identifier_tag_raises_witness :
  raises (ACESTransformID.__init__
            "urn:ampas:aces:transformId:v1.5:ODT.Academy.DCDM.a1.0.3")
  /\ raises (CTLTransform.__init__ former_read_file id
               "/aces/transforms/ctl/odt/ODT.Academy.DCDM.ctl" "output" "dcdm").
Proof.
  assert (raises (ACESTransformID.__init__
                    "urn:ampas:aces:transformId:v1.5:ODT.Academy.DCDM.a1.0.3"))
    as Hgroup by exact I.
  split; [exact Hgroup|].
  eapply (malformed_identifier_tag_raises former_read_file id _ _ _ _ []).
  - reflexivity.
  - vm_compute. reflexivity.
  - constructor.
  - vm_compute. reflexivity.
  - exact Hgroup.
Defined.

Lemma space_length_ascii (c : ascii) (s : string) :
  Py.isspace c = false ->
  (nat_of_ascii c <? 194) = true ->
  Py.space_length (String c s) = 0.
Proof.
  intros Hc Hn%Nat.ltb_lt. cbn [Py.space_length]. rewrite Hc.
  assert (forall k, 194 <= k -> (nat_of_ascii c =? k) = false) as Hne.
  { intros k Hk. apply Nat.eqb_neq. lia. }
  destruct s as [|c1 [|c2 s]]; [reflexivity| |]; cbv zeta;
    rewrite ?(Hne 194), ?(Hne 225), ?(Hne 226), ?(Hne 227) by lia;
    reflexivity.
Qed.

Lemma lstrip_nonspace (c : ascii) (s : string) :
  Py.space_length (String c s) = 0 -> Py.lstrip (String c s) = String c s.
Proof. intros Hc. unfold Py.lstrip. cbn [Py.lstrip_from]. by rewrite Hc. Qed.

Lemma rstrip_nonspace (c : ascii) (s : string) :
  Py.space_length (String c s) = 0 ->
  Py.rstrip (String c s) = String c (Py.rstrip s).
Proof. intros Hc. cbn [Py.rstrip]. by rewrite (lstrip_nonspace _ _ Hc). Qed.

Lemma strip_undefined (rest : string) :
  Py.strip (VALUE_DEFAULT_UNDEFINED +:+ rest)
  = VALUE_DEFAULT_UNDEFINED +:+ Py.rstrip rest.
Proof.
  unfold Py.strip, VALUE_DEFAULT_UNDEFINED.
  rewrite !append_cons, append_nil_l.
  rewrite lstrip_nonspace by (by apply space_length_ascii).
  by rewrite !rstrip_nonspace by (by apply space_length_ascii).
Qed.

Lemma append_nil_r (s : string) : s +:+ "" = s.
Proof.
  induction s as [|c s IH]; [reflexivity|]. by rewrite append_cons, IH.
Qed.

Lemma parse_header_description (lines : list string) (self t : CTLTransform.t) :
  CTLTransform.parse_header lines self = Py.Return t ->
  exists rest,
    CTLTransform.description t = CTLTransform.description self +:+ rest.
Proof.
  revert self. induction lines as [|line lines IH]; intros self;
    cbn [CTLTransform.parse_header].
  - intros [= <-]. exists "". by rewrite append_nil_r.
  - destruct (re_search_tag "ACEStransformID" line) as [group|].
    { destruct (ACESTransformID.__init__ group) as [id|e];
        [rewrite bind_return|by rewrite bind_raise].
      intros H. exact (IH _ H). }
    destruct (re_search_tag "ACESuserName" line) as [group|].
    { intros H. exact (IH _ H). }
    destruct (Py.startswith line "//").
    + intros H. destruct (IH _ H) as (rest & ->).
      cbn [CTLTransform.set_description CTLTransform.description].
      eexists. by rewrite append_assoc.
    + intros [= <-]. exists "". by rewrite append_nil_r.
Qed.

(** X20.  The description is accumulated onto the undefined value and
    that value is never taken away: the description of every record that
    is constructed starts with [undefined]. *)
Theorem description_starts_with_undefined (read_file : string -> option string)
  (abspath : string -> string) (path family genus : string)
  (t : CTLTransform.t) :
  CTLTransform.__init__ read_file abspath path family genus = Py.Return t ->
  exists rest, CTLTransform.description t = VALUE_DEFAULT_UNDEFINED +:+ rest.
Proof.
  rewrite init_as_parse_header.
  destruct (read_file (abspath path)) as [content|]; [|discriminate].
  destruct (CTLTransform.parse_header _ _) as [self|e] eqn:Hparse;
    [rewrite bind_return|by rewrite bind_raise].
  intros [= <-]. cbn [CTLTransform.set_description CTLTransform.description].
  destruct (parse_header_description _ _ _ Hparse) as (rest & ->).
  cbn [CTLTransform.set_code unparsed_record CTLTransform.description].
  rewrite strip_undefined. eauto.
Qed.

Lemma description_starts_with_undefined_witness :
  match CTLTransform.__init__ sample_read_file id
          "/aces/transforms/ctl/aces-core/Lib.Academy.Bar.ctl" "lib" "undefined" with
  | Py.Return t =>
      CTLTransform.description t = "undefinedA sample transform."
      /\ exists rest,
           CTLTransform.description t = VALUE_DEFAULT_UNDEFINED +:+ rest
  | Py.Raise _ => False
  end.
Proof.
  destruct (CTLTransform.__init__ sample_read_file id
              "/aces/transforms/ctl/aces-core/Lib.Academy.Bar.ctl" "lib" "undefined")
    as [t|e] eqn:Hinit.
  - split; [|exact (description_starts_with_undefined _ _ _ _ _ _ Hinit)].
    vm_compute in Hinit. by injection Hinit as <-.
  - vm_compute in Hinit. discriminate Hinit.
Defined.

(** ** [classify_aces_ctl_transforms] *)

Lemma sample_file_is_parsed (path family genus : string) :
  exists t,
    CTLTransform.__init__ sample_read_file id path family genus = Py.Return t.
Proof. eexists. vm_compute. reflexivity. Qed.

(** X21.  The classification fails only where the construction of a
    record fails: when every discovered file can be made into a record,
    it returns, whatever the directories and the file names are. *)
Theorem classification_returns (read_file : string -> option string)
  (abspath : string -> string) (paths_common_ancestor : list string -> string)
  (unclassified : Py.dict (list string)) :
  (forall path family genus,
     path ∈ concat (Py.values unclassified) ->
     exists t, CTLTransform.__init__ read_file abspath path family genus
               = Py.Return t) ->
  exists classified,
    classify_aces_ctl_transforms read_file abspath paths_common_ancestor
      unclassified = Py.Return classified.
Proof. apply classify_returns. Qed.

Lemma classification_returns_witness :
  exists classified,
    classify_aces_ctl_transforms sample_read_file id paths_common_ancestor
      (discover_aces_ctl_transforms walk_with_collision) = Py.Return classified.
Proof.
  apply classification_returns.
  intros path family genus _. apply sample_file_is_parsed.
Defined.

Lemma init_filing (read_file : string -> option string)
  (abspath : string -> string) (path family genus : string)
  (t : CTLTransform.t) :
  CTLTransform.__init__ read_file abspath path family genus = Py.Return t ->
  CTLTransform.family t = family
  /\ CTLTransform.genus t = genus
  /\ CTLTransform.siblings t = [].
Proof.
  rewrite init_as_parse_header.
  destruct (read_file (abspath path)) as [content|]; [|discriminate].
  destruct (CTLTransform.parse_header _ _) as [self|e] eqn:Hparse;
    [rewrite bind_return|by rewrite bind_raise].
  intros [= <-]. cbn [CTLTransform.set_description CTLTransform.family
    CTLTransform.genus CTLTransform.siblings].
  by destruct (parse_header_keeps _ _ _ Hparse) as (_ & _ & -> & -> & ->).
Qed.

Lemma taxonomy_get_set_entry_eq (classified : taxonomy)
  (family genus basename : string) (ctl_transform : entry) :
  taxonomy_get (set_entry classified family genus basename ctl_transform)
    family genus basename
  = Some ctl_transform.
Proof.
  unfold taxonomy_get, set_entry.
  by rewrite get_default_set, String.eqb_refl, get_default_set,
    String.eqb_refl, get_set_eq.
Qed.

Lemma well_filed_set_entry (classified : taxonomy)
  (family genus basename : string) (ctl_transform : entry) :
  well_filed classified ->
  filed_under family genus ctl_transform ->
  well_filed (set_entry classified family genus basename ctl_transform).
Proof.
  intros Hclassified Hentry family' genus' basename' ctl_transform'.
  destruct (decide ((family', genus', basename') = (family, genus, basename)))
    as [[= -> -> ->]|Hne].
  - rewrite taxonomy_get_set_entry_eq. by intros [= <-].
  - rewrite taxonomy_get_set_entry_ne by done. apply Hclassified.
Qed.

Lemma classify_pairs_well_filed (read_file : string -> option string)
  (abspath : string -> string) (family genus basename : string)
  (pairs : Py.dict string) (classified classified' : taxonomy) :
  classify_pairs read_file abspath family genus classified (basename, pairs)
  = Py.Return classified' ->
  well_filed classified -> well_filed classified'.
Proof.
  unfold classify_pairs.
  destruct (Py.values pairs) as [|p [|q [|r l]]]; cbv beta iota.
  - by intros [= <-].
  - destruct (CTLTransform.__init__ read_file abspath p family genus)
      as [t|e] eqn:Hinit; [rewrite bind_return|by rewrite bind_raise].
    intros [= <-] Hclassified. apply well_filed_set_entry; [done|].
    exact (init_filing _ _ _ _ _ _ Hinit).
  - destruct (Py.getitem pairs "forward_transform") as [forward_path|e];
      [rewrite bind_return|by rewrite bind_raise].
    destruct (CTLTransform.__init__ read_file abspath forward_path family genus)
      as [tf|e] eqn:Hforward; [rewrite bind_return|by rewrite bind_raise].
    destruct (Py.getitem pairs "inverse_transform") as [inverse_path|e];
      [rewrite bind_return|by rewrite bind_raise].
    destruct (CTLTransform.__init__ read_file abspath inverse_path family genus)
      as [ti|e] eqn:Hinverse; [rewrite bind_return|by rewrite bind_raise].
    intros [= <-] Hclassified. apply well_filed_set_entry; [done|].
    destruct (init_filing _ _ _ _ _ _ Hforward) as (Hff & Hfg & Hfs).
    destruct (init_filing _ _ _ _ _ _ Hinverse) as (Hif & Hig & His).
    cbn [filed_under CTLTransformPair.forward_transform
         CTLTransformPair.inverse_transform]. cbv zeta.
    unfold CTLTransform.append_sibling.
    cbn [CTLTransform.family CTLTransform.genus CTLTransform.siblings
         CTLTransform.path].
    by rewrite Hfs, His.
  - by intros [= <-].
Qed.

Lemma for_each_invariant {A S : Type} (Inv : S -> Prop)
  (body : S -> A -> Py.result S) (xs : list A) :
  (forall acc x acc', body acc x = Py.Return acc' -> Inv acc -> Inv acc') ->
  forall acc r, Py.for_each body xs acc = Py.Return r -> Inv acc -> Inv r.
Proof.
  intros Hbody. induction xs as [|x xs IH]; intros acc r; cbn [Py.for_each].
  - by intros [= <-].
  - destruct (body acc x) as [acc'|e] eqn:Hx; cbn [Py.bind]; [|discriminate].
    intros Hrest Hacc. apply (IH _ _ Hrest). by apply (Hbody _ _ _ Hx).
Qed.

(** X22.  In a classification, a record carries the family and the genus
    it is filed under, a record filed alone has no sibling, and the two
    records of a pair have each other, and nothing else, as siblings. *)
Theorem classified_entries_are_well_filed (read_file : string -> option string)
  (abspath : string -> string) (paths_common_ancestor : list string -> string)
  (unclassified : Py.dict (list string)) (classified : taxonomy)
  (family genus basename : string) (ctl_transform : entry) :
  classify_aces_ctl_transforms read_file abspath paths_common_ancestor unclassified
  = Py.Return classified ->
  taxonomy_get classified family genus basename = Some ctl_transform ->
  filed_under family genus ctl_transform.
Proof.
  rewrite classify_as_assignments. intros Hclassify.
  revert family genus basename ctl_transform. fold (well_filed classified).
  apply (for_each_invariant well_filed _ _) in Hclassify; [done| |done].
  intros acc [[f g] [b pairs]] acc'. apply classify_pairs_well_filed.
Qed.

Lemma classified_entries_are_well_filed_witness :
  match classify_aces_ctl_transforms sample_read_file id paths_common_ancestor
          (discover_aces_ctl_transforms walk_with_pair) with
  | Py.Return classified =>
      match taxonomy_get classified "output" "d65" "Output.Academy.Foo" with
      | Some ctl_transform =>
          length (unclassify_entry ctl_transform) = 2
          /\ filed_under "output" "d65" ctl_transform
      | None => False
      end
  | Py.Raise _ => False
  end.
Proof.
  destruct (classify_aces_ctl_transforms sample_read_file id paths_common_ancestor
              (discover_aces_ctl_transforms walk_with_pair))
    as [classified|e] eqn:Hclassify.
  - destruct (taxonomy_get classified "output" "d65" "Output.Academy.Foo")
      as [ctl_transform|] eqn:Hget.
    + split; [|exact (classified_entries_are_well_filed _ _ _ _ _ _ _ _ _
                        Hclassify Hget)].
      vm_compute in Hclassify. injection Hclassify as <-.
      vm_compute in Hget. by injection Hget as <-.
    + vm_compute in Hclassify. injection Hclassify as <-.
      vm_compute in Hget. discriminate Hget.
  - vm_compute in Hclassify. discriminate Hclassify.
Defined.

Lemma submseteq_NoDup_l {A : Type} (l k : list A) :
  l ⊆+ k -> NoDup k -> NoDup l.
Proof.
  intros (k' & Hperm)%submseteq_Permutation Hk.
  rewrite Hperm in Hk. by apply NoDup_app in Hk as (Hl & _).
Qed.

(** X23.  When the absolute paths of the discovered files are pairwise
    distinct, no two records of the flattened classification are equal
    in the sense of [__eq__], which compares the paths. *)
Theorem classified_records_are_distinct (read_file : string -> option string)
  (abspath : string -> string) (paths_common_ancestor : list string -> string)
  (unclassified : Py.dict (list string)) (classified : taxonomy)
  (i j : nat) (t u : CTLTransform.t) :
  classify_aces_ctl_transforms read_file abspath paths_common_ancestor unclassified
  = Py.Return classified ->
  NoDup (map abspath (concat (Py.values unclassified))) ->
  unclassify_ctl_transforms classified !! i = Some t ->
  unclassify_ctl_transforms classified !! j = Some u ->
  i <> j ->
  CTLTransform.eqb t u = false.
Proof.
  intros Hclassify Hdistinct Hi Hj Hij.
  destruct (classify_contents _ _ _ _ _ Hclassify) as (dropped & Hperm & _).
  assert (NoDup (classified_paths classified)) as Hnodup.
  { apply (submseteq_NoDup_l _ (map abspath (concat (Py.values unclassified))));
      [|done].
    rewrite <- Hperm. by apply submseteq_inserts_r. }
  unfold CTLTransform.eqb.
  destruct (String.eqb_spec (CTLTransform.path t) (CTLTransform.path u))
    as [Heq|]; [|done].
  exfalso. apply Hij. rewrite NoDup_alt in Hnodup.
  apply (Hnodup i j (CTLTransform.path t)); unfold classified_paths.
  - change (map CTLTransform.path ?l) with (CTLTransform.path <$> l).
    by rewrite list_lookup_fmap, Hi.
  - change (map CTLTransform.path ?l) with (CTLTransform.path <$> l).
    by rewrite list_lookup_fmap, Hj, Heq.
Qed.

Lemma classified_records_are_distinct_witness :
  match classify_aces_ctl_transforms sample_read_file id paths_common_ancestor
          (discover_aces_ctl_transforms walk_with_pair) with
  | Py.Return classified =>
      match unclassify_ctl_transforms classified !! 0,
            unclassify_ctl_transforms classified !! 1 with
      | Some t, Some u => CTLTransform.eqb t u = false
      | _, _ => False
      end
  | Py.Raise _ => False
  end.
Proof.
  destruct (classify_aces_ctl_transforms sample_read_file id paths_common_ancestor
              (discover_aces_ctl_transforms walk_with_pair))
    as [classified|e] eqn:Hclassify.
  - destruct (unclassify_ctl_transforms classified !! 0) as [t|] eqn:Ht.
    + destruct (unclassify_ctl_transforms classified !! 1) as [u|] eqn:Hu.
      * apply (classified_records_are_distinct _ _ _ _ _ 0 1 t u Hclassify);
          [|done|done|lia].
        apply (bool_decide_unpack _). vm_compute. exact I.
      * vm_compute in Hclassify. injection Hclassify as <-.
        vm_compute in Hu. discriminate Hu.
    + vm_compute in Hclassify. injection Hclassify as <-.
      vm_compute in Ht. discriminate Ht.
  - vm_compute in Hclassify. discriminate Hclassify.
Defined.

(** ** [ACESTransformID]: the identifier and its fields *)

Lemma startswith_drop (s p : string) :
  Py.startswith s p = true -> s = p +:+ Py.drop (String.length p) s.
Proof.
  revert s. induction p as [|a p IH]; intros s; [done|].
  destruct s as [|b s]; cbn [Py.startswith]; [done|].
  destruct (Ascii.eqb_spec a b) as [->|]; [|done].
  intros H. rewrite append_cons. cbn [String.length Py.drop]. f_equal.
  by apply IH.
Qed.

(** What [rpartition] returns is what stands on the two sides of an
    occurrence of the separator. *)
Lemma rpartition_app (s sep h t : string) :
  Py.rpartition s sep = Some (h, t) -> s = h +:+ sep +:+ t.
Proof.
  revert h t. induction s as [|c s IH]; intros h t; cbn [Py.rpartition].
  - destruct sep as [|a sep]; cbn [Py.startswith]; [|done].
    by intros [= <- <-].
  - destruct (Py.rpartition s sep) as [[h' t']|].
    + intros [= <- <-]. rewrite append_cons. f_equal. by apply IH.
    + destruct (Py.startswith (String c s) sep) eqn:Hsw; [|done].
      intros [= <- <-]. rewrite append_nil_l. by apply startswith_drop.
Qed.

(** X24.  Nothing of a parsed identifier is lost: when the construction
    returns for a text other than the undefined value, the record keeps
    the text as it was given, its URN is the constant, its type is one of
    the six, and the URN and the five fields, put together with the two
    separators, are the text after the compatibility rewrite. *)
Theorem parsed_identifier_recomposes (s : string) (t : ACESTransformID.t) :
  s <> VALUE_DEFAULT_UNDEFINED ->
  ACESTransformID.__init__ s = Py.Return t ->
  ACESTransformID.aces_transform_id t = s
  /\ ACESTransformID.urn t = URN_CTL
  /\ ACESTransformID.type t ∈ TRANSFORM_TYPES_CTL
  /\ patch_invalid_aces_transform_id s
     = format_aces_transform_id
         (ACESTransformID.type t) (ACESTransformID.namespace t)
         (ACESTransformID.name t) (ACESTransformID.major_version t)
         (ACESTransformID.minor_version t).
Proof.
  intros Hs. rewrite (init_defined s Hs).
  destruct (urn_segment s) as [urn|] eqn:Hurn.
  - rewrite (parse_defined_tokens s urn (id_tokens s) Hurn eq_refl).
    assert (patch_invalid_aces_transform_id s
            = urn +:+ SEPARATOR_URN_CTL
              +:+ Py.join SEPARATOR_ID_CTL (id_tokens s)) as Hpatch.
    { unfold urn_segment in Hurn. unfold id_tokens.
      destruct (Py.rpartition _ _) as [[u i]|] eqn:Hr; [|discriminate].
      injection Hurn as ->. apply rpartition_app in Hr. rewrite Hr.
      unfold SEPARATOR_ID_CTL. by rewrite join_split_char. }
    destruct (id_tokens s) as [|type components]; [discriminate|].
    destruct (String.eqb_spec urn URN_CTL) as [->|Hne]; [|discriminate].
    cbn [attest]. rewrite bind_return.
    destruct components as [|a [|b [|c [|d [|]]]]]; try discriminate.
    cbn [length Nat.eqb attest]. rewrite bind_return.
    destruct (Py.mem type TRANSFORM_TYPES_CTL) eqn:Hmem; [|discriminate].
    cbn [attest]. rewrite bind_return.
    destruct (ACESTransformID.source_target _ _ _) as [[source target]|e];
      [rewrite bind_return|discriminate].
    intros [= <-].
    cbn [ACESTransformID.aces_transform_id ACESTransformID.urn
         ACESTransformID.type ACESTransformID.namespace ACESTransformID.name
         ACESTransformID.major_version ACESTransformID.minor_version].
    split; [done|]. split; [done|]. split; [by apply mem_true|exact Hpatch].
  - unfold urn_segment in Hurn.
    unfold ACESTransformID._parse_defined, Py.rsplit1.
    cbn [ACESTransformID.aces_transform_id ACESTransformID.blank].
    destruct (Py.rpartition _ _) as [[u i]|]; discriminate.
Qed.

Lemma parsed_identifier_recomposes_witness :
  match ACESTransformID.__init__
          "urn:ampas:aces:transformID:v2.0:CSC.Academy.ACES_to_ACEScct.a2.v1" with
  | Py.Return t =>
      ACESTransformID.aces_transform_id t
      = "urn:ampas:aces:transformID:v2.0:CSC.Academy.ACES_to_ACEScct.a2.v1"
      /\ ACESTransformID.urn t = URN_CTL
      /\ ACESTransformID.type t ∈ TRANSFORM_TYPES_CTL
      /\ "urn:ampas:aces:transformId:v2.0:CSC.Academy.ACES_to_ACEScct.a2.v1"
         = format_aces_transform_id
             (ACESTransformID.type t) (ACESTransformID.namespace t)
             (ACESTransformID.name t) (ACESTransformID.major_version t)
             (ACESTransformID.minor_version t)
  | Py.Raise _ => False
  end.
Proof.
  destruct (ACESTransformID.__init__
              "urn:ampas:aces:transformID:v2.0:CSC.Academy.ACES_to_ACEScct.a2.v1")
    as [t|e] eqn:Hinit.
  - assert ("urn:ampas:aces:transformID:v2.0:CSC.Academy.ACES_to_ACEScct.a2.v1"
            <> VALUE_DEFAULT_UNDEFINED) as Hs by discriminate.
    exact (parsed_identifier_recomposes _ t Hs Hinit).
  - vm_compute in Hinit. discriminate Hinit.
Defined.

Lemma contains_char_append (a b : string) (c : ascii) :
  Py.contains (a +:+ b) (String c "")
  = Py.contains a (String c "") || Py.contains b (String c "").
Proof.
  induction a as [|x a IH]; [reflexivity|].
  rewrite append_cons. cbn [Py.contains]. rewrite !startswith_char, IH.
  by rewrite orb_assoc.
Qed.

Lemma rpartition_absent_char (s : string) (c : ascii) :
  Py.contains s (String c "") = false -> Py.rpartition s (String c "") = None.
Proof.
  induction s as [|x s IH]; [reflexivity|].
  cbn [Py.contains Py.rpartition]. intros [Hs Hc]%orb_false_iff.
  by rewrite (IH Hc), Hs.
Qed.

Lemma rpartition_char (h t : string) (c : ascii) :
  Py.contains t (String c "") = false ->
  Py.rpartition (h +:+ String c "" +:+ t) (String c "") = Some (h, t).
Proof.
  intros Ht. induction h as [|x h IH].
  - rewrite append_nil_l, append_cons, append_nil_l. cbn [Py.rpartition].
    rewrite (rpartition_absent_char _ _ Ht), startswith_char, Ascii.eqb_refl.
    reflexivity.
  - rewrite append_cons. cbn [Py.rpartition]. by rewrite IH.
Qed.

Lemma split_from_absent_char (seg : string) (c : ascii) :
  Py.contains seg (String c "") = false ->
  Py.split_from 0 seg (String c "") = (seg, []).
Proof.
  induction seg as [|x seg IH]; [reflexivity|].
  cbn [Py.contains Py.split_from]. intros [Hs Hc]%orb_false_iff.
  rewrite Hs. by rewrite (IH Hc).
Qed.

Lemma split_from_segment_char (seg rest : string) (c : ascii) :
  Py.contains seg (String c "") = false ->
  Py.split_from 0 (seg +:+ String c "" +:+ rest) (String c "")
  = (seg, Py.split rest (String c "")).
Proof.
  induction seg as [|x seg IH].
  - intros _. rewrite append_nil_l, append_cons, append_nil_l.
    cbn [Py.split_from]. by rewrite startswith_char, Ascii.eqb_refl.
  - cbn [Py.contains]. intros [Hs Hc]%orb_false_iff.
    rewrite append_cons. cbn [Py.split_from].
    rewrite startswith_char in Hs |- *. rewrite Hs. by rewrite (IH Hc).
Qed.

Lemma split_join_char (seg : string) (segs : list string) (c : ascii) :
  Forall (fun s => Py.contains s (String c "") = false) (seg :: segs) ->
  Py.split (Py.join (String c "") (seg :: segs)) (String c "") = seg :: segs.
Proof.
  revert seg. induction segs as [|seg' segs IH]; intros seg Hall.
  - cbn [Py.join]. unfold Py.split. rewrite split_from_absent_char; [done|].
    by apply Forall_inv in Hall.
  - change (Py.join (String c "") (seg :: seg' :: segs))
      with (seg +:+ String c "" +:+ Py.join (String c "") (seg' :: segs)).
    unfold Py.split at 1. rewrite split_from_segment_char.
    + rewrite IH; [done|]. by apply Forall_inv_tail in Hall.
    + by apply Forall_inv in Hall.
Qed.

Lemma contains_char_join (seg : string) (segs : list string) (a c : ascii) :
  a <> c ->
  Forall (fun s => Py.contains s (String c "") = false) (seg :: segs) ->
  Py.contains (Py.join (String a "") (seg :: segs)) (String c "") = false.
Proof.
  intros Hac. revert seg. induction segs as [|seg' segs IH]; intros seg Hall.
  - cbn [Py.join]. by apply Forall_inv in Hall.
  - change (Py.join (String a "") (seg :: seg' :: segs))
      with (seg +:+ String a "" +:+ Py.join (String a "") (seg' :: segs)).
    rewrite !contains_char_append, IH by (by apply Forall_inv_tail in Hall).
    rewrite (Forall_inv Hall). cbn [Py.contains]. rewrite startswith_char.
    rewrite orb_false_r. cbn [orb].
    destruct (Ascii.eqb_spec c a) as [->|]; [done|]. reflexivity.
Qed.

(** X25.  An identifier put together from the URN, one of the six types
    and four fields that hold neither separator parses back to these
    fields, with the source and the target of the rules, provided the
    compatibility rewrite leaves it as it is. *)
Theorem formatted_identifier_parses
  (type namespace name major_version minor_version : string) :
  type ∈ TRANSFORM_TYPES_CTL ->
  Forall (fun field => Py.contains field SEPARATOR_ID_CTL = false
                       /\ Py.contains field SEPARATOR_URN_CTL = false)
         [namespace; name; major_version; minor_version] ->
  patch_invalid_aces_transform_id
    (format_aces_transform_id type namespace name major_version minor_version)
  = format_aces_transform_id type namespace name major_version minor_version ->
  match source_target_rule type name with
  | Some (source, target) =>
      ACESTransformID.__init__
        (format_aces_transform_id type namespace name major_version
           minor_version)
      = Py.Return
          {| ACESTransformID.aces_transform_id :=
               format_aces_transform_id type namespace name major_version
                 minor_version;
             ACESTransformID.urn := URN_CTL;
             ACESTransformID.type := type;
             ACESTransformID.namespace := namespace;
             ACESTransformID.name := name;
             ACESTransformID.major_version := major_version;
             ACESTransformID.minor_version := minor_version;
             ACESTransformID.patch_version := VALUE_DEFAULT_UNDEFINED;
             ACESTransformID.source := source;
             ACESTransformID.target := target |}
  | None =>
      raises (ACESTransformID.__init__
                (format_aces_transform_id type namespace name major_version
                   minor_version))
  end.
Proof.
  intros Hty Hfields Hpatch.
  set (s := format_aces_transform_id type namespace name major_version
              minor_version) in *.
  assert (Forall (fun field => Py.contains field SEPARATOR_ID_CTL = false
                               /\ Py.contains field SEPARATOR_URN_CTL = false)
            [type; namespace; name; major_version; minor_version]) as Hall.
  { constructor; [|exact Hfields].
    repeat (apply elem_of_cons in Hty as [-> | Hty]; [by split|]).
    by apply elem_of_nil in Hty. }
  assert (s <> VALUE_DEFAULT_UNDEFINED) as Hs.
  { intros H. apply (f_equal (String.get 1)) in H. vm_compute in H.
    discriminate H. }
  assert (Py.rpartition s SEPARATOR_URN_CTL
          = Some (URN_CTL,
                  Py.join SEPARATOR_ID_CTL
                    [type; namespace; name; major_version; minor_version]))
    as Hr.
  { apply rpartition_char. apply contains_char_join; [done|].
    eapply Forall_impl; [exact Hall|]. by intros field [_ H]. }
  assert (urn_segment s = Some URN_CTL) as Hurn.
  { unfold urn_segment. by rewrite Hpatch, Hr. }
  assert (id_tokens s = [type; namespace; name; major_version; minor_version])
    as Htok.
  { unfold id_tokens. rewrite Hpatch, Hr. apply split_join_char.
    eapply Forall_impl; [exact Hall|]. by intros field [H _]. }
  rewrite (init_defined s Hs).
  rewrite (parse_defined_tokens s URN_CTL _ Hurn Htok).
  rewrite String.eqb_refl. cbn [attest length Nat.eqb]. rewrite !bind_return.
  apply mem_true in Hty. rewrite Hty. cbn [attest]. rewrite bind_return.
  pose proof (source_target_refines_rule type name) as Href.
  destruct (source_target_rule type name) as [[source target]|].
  - rewrite Href. reflexivity.
  - destruct (ACESTransformID.source_target _ _ _); [destruct Href|exact I].
Qed.

Lemma formatted_identifier_parses_witness :
  ACESTransformID.__init__
    (format_aces_transform_id "CSC" "Academy" "ACES_to_ACEScct" "a2" "v1")
  = Py.Return
      {| ACESTransformID.aces_transform_id :=
           format_aces_transform_id "CSC" "Academy" "ACES_to_ACEScct" "a2" "v1";
         ACESTransformID.urn := URN_CTL;
         ACESTransformID.type := "CSC";
         ACESTransformID.namespace := "Academy";
         ACESTransformID.name := "ACES_to_ACEScct";
         ACESTransformID.major_version := "a2";
         ACESTransformID.minor_version := "v1";
         ACESTransformID.patch_version := VALUE_DEFAULT_UNDEFINED;
         ACESTransformID.source := "ACES2065-1";
         ACESTransformID.target := "ACEScct" |}.
Proof.
  apply (formatted_identifier_parses "CSC" "Academy" "ACES_to_ACEScct" "a2" "v1").
  - apply mem_true. vm_compute. reflexivity.
  - repeat constructor.
  - vm_compute. reflexivity.
Defined.
